(** * sketch: SketchPad / Portfolio (src/sketch/core.py) and the join
      endpoints of the API (src/sketch/api/main.py)

    A shallow embedding of the Python code.  Exceptions are values of
    [result]; Python numbers are [pynum] (arbitrary precision integers and
    binary64 floats); dictionaries whose iteration order the code relies on
    are association lists kept in insertion order; the process-wide effects
    (uuid generation, the clock, HTTP requests, logging) are threaded through
    an explicit [World]. *)

From Stdlib Require Import List String Ascii ZArith QArith Bool Arith Lia.
From Stdlib Require Import Permutation Sorted.
From Stdlib Require Import Floats.
From Stdlib Require Import Reals Lra.
Import ListNotations.

Set Implicit Arguments.
Set Warnings "-register-all,-inexact-float".
Local Open Scope string_scope.
Local Open Scope list_scope.

(* ================================================================== *)
(** ** Exceptions and the error monad *)

Module Py.

(** The exception classes the embedded code can raise. *)
Inductive exn : Type :=
| TypeError
| KeyError
| IndexError
| AttributeError
| AssertionError
| ValueError
| OverflowError
| Exception (msg : string).

Inductive result (A : Type) : Type :=
| Ok (a : A)
| Raise (e : exn).
Arguments Ok {A} a.
Arguments Raise {A} e.

Definition bind {A B} (m : result A) (k : A -> result B) : result B :=
  match m with
  | Ok a => k a
  | Raise e => Raise e
  end.

(** [for x in l: acc = f(acc, x)], stopping at the first exception. *)
Fixpoint foldM {A B} (f : B -> A -> result B) (l : list A) (acc : B) : result B :=
  match l with
  | [] => Ok acc
  | x :: l' => bind (f acc x) (foldM f l')
  end.

(** A list comprehension [[f(x) for x in l]], evaluated left to right. *)
Fixpoint mapM {A B} (f : A -> result B) (l : list A) : result (list B) :=
  match l with
  | [] => Ok []
  | x :: l' => bind (f x) (fun y => bind (mapM f l') (fun ys => Ok (y :: ys)))
  end.

End Py.
Export Py.

Declare Scope py_scope.
Delimit Scope py_scope with py.
Notation "x <- m ;; k" := (bind m (fun x => k))
  (at level 61, m at next level, right associativity) : py_scope.
Notation "' p <- m ;; k" := (bind m (fun p => k))
  (at level 61, p pattern, m at next level, right associativity) : py_scope.
Local Open Scope py_scope.

(* ================================================================== *)
(** ** Python numbers *)

Module Num.

(** A Python number: an [int] or a [float] (IEEE 754 binary64). *)
Inductive pynum : Type :=
| PyInt (z : Z)
| PyFloat (f : float).

(** The exact value of a number on the extended rational line; a NaN has
    none. *)
Inductive xval : Type :=
| NegInf
| Fin (q : Q)
| PosInf.

Definition float_val (f : float) : option xval :=
  match Prim2SF f with
  | S754_nan => None
  | S754_infinity s => Some (if s then NegInf else PosInf)
  | S754_zero _ => Some (Fin 0)
  | S754_finite s m e =>
      Some (Fin (inject_Z (if s then Z.neg m else Z.pos m) * Qpower 2 e))
  end.

Definition num_val (x : pynum) : option xval :=
  match x with
  | PyInt z => Some (Fin (inject_Z z))
  | PyFloat f => float_val f
  end.

Definition xlt (a b : xval) : bool :=
  match a, b with
  | NegInf, NegInf => false
  | NegInf, _ => true
  | Fin _, NegInf => false
  | Fin p, Fin q => match Qcompare p q with Lt => true | _ => false end
  | Fin _, PosInf => true
  | PosInf, _ => false
  end.

Definition xeq (a b : xval) : bool :=
  match a, b with
  | NegInf, NegInf => true
  | Fin p, Fin q => Qeq_bool p q
  | PosInf, PosInf => true
  | _, _ => false
  end.

(** [a < b], [a > b] and [a == b] on numbers.  Python compares an int with
    a float, and two floats, by exact value; every comparison with a NaN is
    False. *)
Definition num_lt (a b : pynum) : bool :=
  match num_val a, num_val b with
  | Some x, Some y => xlt x y
  | _, _ => false
  end.

Definition num_gt (a b : pynum) : bool := num_lt b a.

Definition num_eq (a b : pynum) : bool :=
  match num_val a, num_val b with
  | Some x, Some y => xeq x y
  | _, _ => false
  end.

(** [float(z)] for a Python int: round to nearest even; an int beyond the
    binary64 range raises OverflowError. *)
Definition float_of_int (z : Z) : result float :=
  let f := SF2Prim (binary_normalize prec emax z 0 false) in
  if PrimFloat.is_infinity f then Raise OverflowError else Ok f.

(** [x * n] for a float [x] and an int [n]: the int is converted first. *)
Definition float_mul_int (x : float) (n : Z) : result float :=
  y <- float_of_int n ;; Ok (PrimFloat.mul x y).

End Num.
Export Num.

(* ================================================================== *)
(** ** Python values (the JSON-shaped documents the code passes around) *)

Module Value.

Inductive pyval : Type :=
| PNone
| PBool (b : bool)
| PNum (n : pynum)
| PStr (s : string)
| PList (l : list pyval)
| PDict (d : list (string * pyval)).

(** A [dict] with string keys, in insertion order. *)
Definition dict (V : Type) : Type := list (string * V).

Fixpoint dict_get {V} (k : string) (d : dict V) : option V :=
  match d with
  | [] => None
  | (k', v) :: d' => if String.eqb k k' then Some v else dict_get k d'
  end.

(** [d[k] = v]: an existing key keeps its place, a new key goes last. *)
Fixpoint dict_set {V} (k : string) (v : V) (d : dict V) : dict V :=
  match d with
  | [] => [(k, v)]
  | (k', v') :: d' =>
      if String.eqb k k' then (k, v) :: d' else (k', v') :: dict_set k v d'
  end.

Definition keys {V} (d : dict V) : list string := map fst d.
Definition values {V} (d : dict V) : list V := map snd d.

(** [d[k]] as an expression: KeyError on a missing key. *)
Definition dict_getitem {V} (d : dict V) (k : string) : result V :=
  match dict_get k d with
  | Some v => Ok v
  | None => Raise KeyError
  end.

(** [v[k]] for a string key [k]: only a dict can be subscripted by a
    string. *)
Definition getitem (v : pyval) (k : string) : result pyval :=
  match v with
  | PDict d => dict_getitem d k
  | _ => Raise TypeError
  end.

(** Truth value of an object, as [x or y] tests it. *)
Definition truthy (v : pyval) : bool :=
  match v with
  | PNone => false
  | PBool b => b
  | PNum (PyInt z) => negb (Z.eqb z 0)
  | PNum (PyFloat f) => negb (PrimFloat.eqb f 0%float)
  | PStr s => negb (String.eqb s "")
  | PList l => match l with [] => false | _ => true end
  | PDict d => match d with [] => false | _ => true end
  end.

(** [v == s] for a string [s]. *)
Definition eq_str (v : pyval) (s : string) : bool :=
  match v with
  | PStr s' => String.eqb s' s
  | _ => false
  end.

Fixpoint chars (s : string) : list pyval :=
  match s with
  | EmptyString => []
  | String c s' => PStr (String c EmptyString) :: chars s'
  end.

(** The items [for x in v] runs over. *)
Definition iter (v : pyval) : result (list pyval) :=
  match v with
  | PList l => Ok l
  | PDict d => Ok (map (fun kv => PStr (fst kv)) d)
  | PStr s => Ok (chars s)
  | _ => Raise TypeError
  end.

(** [f"{x}"] for an optional string (None prints as its name). *)
Definition format_opt (x : option string) : string :=
  match x with
  | Some s => s
  | None => "None"
  end.

End Value.
Export Value.

(* ================================================================== *)
(** ** The world: uuid generation, the clock, the network, the log *)

Module Env.

Record Request : Type := {
  req_url : string;
  req_json : pyval;
  req_authorization : string
}.

Record Response : Type := {
  status_code : Z;
  text : string
}.

(** The sources of identifiers, timestamps and HTTP answers are part of the
    world; the counters and the two traces record what the program did. *)
Record World : Type := {
  uuid_source : nat -> string;
  uuid_drawn : nat;
  clock_source : nat -> string;
  clock_read : nat;
  remote : list Request -> Request -> Response;
  sent : list Request;
  logged : list string
}.

(** A computation that reads and changes the world and may raise. *)
Definition M (A : Type) : Type := World -> result A * World.

Definition ret {A} (a : A) : M A := fun w => (Ok a, w).

Definition throw {A} (e : exn) : M A := fun w => (Raise e, w).

Definition bindM {A B} (m : M A) (k : A -> M B) : M B :=
  fun w =>
    match m w with
    | (Ok a, w') => k a w'
    | (Raise e, w') => (Raise e, w')
    end.

Definition lift {A} (r : result A) : M A := fun w => (r, w).

(** [str(uuid.uuid4())] *)
Definition uuid4 : M string :=
  fun w =>
    (Ok (uuid_source w (uuid_drawn w)),
     {| uuid_source := uuid_source w; uuid_drawn := S (uuid_drawn w);
        clock_source := clock_source w; clock_read := clock_read w;
        remote := remote w; sent := sent w; logged := logged w |}).

(** [datetime.datetime.utcnow().isoformat()] *)
Definition utcnow_isoformat : M string :=
  fun w =>
    (Ok (clock_source w (clock_read w)),
     {| uuid_source := uuid_source w; uuid_drawn := uuid_drawn w;
        clock_source := clock_source w; clock_read := S (clock_read w);
        remote := remote w; sent := sent w; logged := logged w |}).

(** [requests.post(url, json=..., headers={"Authorization": ...})], for a
    server that answers; the answer may depend on the requests it received
    before. *)
Definition requests_post (rq : Request) : M Response :=
  fun w =>
    (Ok (remote w (sent w) rq),
     {| uuid_source := uuid_source w; uuid_drawn := uuid_drawn w;
        clock_source := clock_source w; clock_read := clock_read w;
        remote := remote w; sent := sent w ++ [rq]; logged := logged w |}).

(** [logging.error(msg)] *)
Definition logging_error (msg : string) : M unit :=
  fun w =>
    (Ok tt,
     {| uuid_source := uuid_source w; uuid_drawn := uuid_drawn w;
        clock_source := clock_source w; clock_read := clock_read w;
        remote := remote w; sent := sent w; logged := logged w ++ [msg] |}).

(** [for x in l: acc = f(acc, x)] in the world, stopping at the first
    exception. *)
Fixpoint foldMM {A B} (f : B -> A -> M B) (l : list A) (acc : B) : M B :=
  match l with
  | [] => ret acc
  | x :: l' => bindM (f acc x) (foldMM f l')
  end.

End Env.
Export Env.

Notation "x <~ m ;; k" := (bindM m (fun x => k))
  (at level 61, m at next level, right associativity) : py_scope.
Notation "m ;;; k" := (bindM m (fun _ => k))
  (at level 61, right associativity) : py_scope.

(* ================================================================== *)
(** ** The modules core.py imports: references.py and sketches.py

    Neither file is part of the sources at hand; core.py uses them through
    the operations below, which are therefore taken as interfaces. *)

(** A column of a frame: [series.name] and the values. *)
Record Series : Type := {
  series_name : pyval;
  series_values : list pyval
}.

(** [from .references import Reference]: [r.to_dict()] and
    [Reference.from_dict(d)]. *)
Class ReferenceOps (Reference : Type) : Type := {
  reference_to_dict : Reference -> pyval;
  reference_from_dict : pyval -> result Reference
}.

(** [from .sketches import SketchBase]: the registry
    [SketchBase.all_sketches()], [skcls.from_series(series)], [s.name],
    [s.data], [s.to_dict()], [SketchBase.from_dict(d)], and the three
    operations core.py applies to a sketch's data: [data.count()],
    [int(data)] and [data.jaccard(other)]. *)
Class SketchOps (Sketch SketchClass SketchData : Type) : Type := {
  all_sketches : list SketchClass;
  sketch_from_series : SketchClass -> Series -> result Sketch;
  sketch_name : Sketch -> string;
  sketch_data : Sketch -> SketchData;
  sketch_to_dict : Sketch -> pyval;
  sketch_from_dict : pyval -> result Sketch;
  data_count : SketchData -> result pynum;
  data_int : SketchData -> result Z;
  data_jaccard : SketchData -> SketchData -> result pynum
}.

(* ================================================================== *)
(** ** class SketchPad (core.py, lines 19-79) *)

Module SketchPad.
Section SketchPad.

Context {Reference Sketch SketchClass SketchData : Type}.
Context {RO : ReferenceOps Reference}.
Context {SO : SketchOps Sketch SketchClass SketchData}.

(** The attributes [__init__] sets. *)
Record t : Type := {
  version : string;
  id : string;
  metadata : dict pyval;
  reference : Reference;
  context : pyval;
  sketches : list Sketch
}.

(** The class attribute [SketchPad.version]. *)
Definition cls_version : string := "0.0.1".

(** The class attribute [SketchPad.sketches = SketchBase.all_sketches()]. *)
Definition cls_sketches : list SketchClass := all_sketches.

(** [SketchPad(reference, context=None)] *)
Definition init (reference : Reference) (context : pyval) : M t :=
  i <~ uuid4 ;;
  start <~ utcnow_isoformat ;;
  ret {| version := "0.0.1";
         id := i;
         metadata := [("id", PStr i); ("creation_start", PStr start)];
         reference := reference;
         context := if truthy context then context else PDict [];
         sketches := [] |}.

(** [get_sketch_by_name(self, name)] *)
Definition get_sketch_by_name (self : t) (name : string) : option Sketch :=
  let sketches := filter (fun sk => String.eqb (sketch_name sk) name) (sketches self) in
  if Nat.eqb (List.length sketches) 1 then nth_error sketches 0 else None.

(** [get_sketchdata_by_name(self, name)]; a sketch object is true as every
    object is that defines neither [__bool__] nor [__len__]. *)
Definition get_sketchdata_by_name (self : t) (name : string) : option SketchData :=
  match get_sketch_by_name self name with
  | Some sketch => Some (sketch_data sketch)
  | None => None
  end.

(** [minhash_jaccard(self, other)]; [Ok None] is the Python value None. *)
Definition minhash_jaccard (self other : t) : result (option pynum) :=
  let self_minhash := get_sketchdata_by_name self "MinHash" in
  let other_minhash := get_sketchdata_by_name other "MinHash" in
  match self_minhash, other_minhash with
  | Some a, Some b => s <- data_jaccard a b ;; Ok (Some s)
  | _, _ => Ok None
  end.

(** [to_dict(self)] *)
Definition to_dict (self : t) : pyval :=
  PDict [("version", PStr (version self));
         ("metadata", PDict (metadata self));
         ("reference", reference_to_dict (reference self));
         ("sketches", PList (map sketch_to_dict (sketches self)));
         ("context", context self)].

(** [sp.context["column_name"] = v] *)
Definition context_setitem (ctx : pyval) (k : string) (v : pyval) : result pyval :=
  match ctx with
  | PDict d => Ok (PDict (dict_set k v d))
  | _ => Raise TypeError
  end.

(** [from_series(cls, series, reference)] *)
Definition from_series (series : Series) (reference : Reference) : M t :=
  sp <~ init reference PNone ;;
  sks <~ lift (mapM (fun skcls => sketch_from_series skcls series) cls_sketches) ;;
  finish <~ utcnow_isoformat ;;
  ctx <~ lift (context_setitem (context sp) "column_name" (series_name series)) ;;
  ret {| version := version sp;
         id := id sp;
         metadata := dict_set "creation_end" (PStr finish) (metadata sp);
         reference := SketchPad.reference sp;
         context := ctx;
         sketches := sketches sp ++ sks |}.

(** The arguments a call site passes positionally. *)
Inductive arg : Type :=
| ArgSeries (series : Series)
| ArgReference (reference : Reference).

(** A call [SketchPad.from_series(...)]: Python binds the positional
    arguments to [series] and [reference] and raises TypeError when one of
    the two required parameters is left without an argument (or when there
    are too many). *)
Definition call_from_series (args : list arg) : M t :=
  match args with
  | [ArgSeries series; ArgReference reference] => from_series series reference
  | _ => throw TypeError
  end.

(** [sp.id = data["metadata"]["id"]].  An identifier is a string
    ([__init__] sets [str(uuid.uuid4())], and it is the key of a
    Portfolio and the second component of a heap entry); a document that
    holds another kind of value there is outside the typed model and
    rejected here. *)
Definition as_str (v : pyval) : result string :=
  match v with
  | PStr s => Ok s
  | _ => Raise TypeError
  end.

Definition as_dict (v : pyval) : result (dict pyval) :=
  match v with
  | PDict d => Ok d
  | _ => Raise TypeError
  end.

(** [assert cond], as Python runs it without the -O switch. *)
Definition py_assert (cond : bool) : result unit :=
  if cond then Ok tt else Raise AssertionError.

(** The statements of [from_dict] after its assertion.  Identifiers are
    strings in this embedding ([id] is a [string]): [as_str] leaves a
    document whose "id" is not a string outside it, where the code stores
    the value whatever it is. *)
Definition from_dict_body (data : pyval) : M t :=
  rd <~ lift (getitem data "reference") ;;
  r <~ lift (reference_from_dict rd) ;;
  sp <~ init r PNone ;;
  md <~ lift (getitem data "metadata") ;;
  mdd <~ lift (as_dict md) ;;
  i <~ lift (idv <- dict_getitem mdd "id" ;; as_str idv) ;;
  ctx <~ lift (getitem data "context") ;;
  sks <~ lift (sd <- getitem data "sketches" ;;
               l <- iter sd ;;
               mapM sketch_from_dict l) ;;
  ret {| version := version sp;
         id := i;
         metadata := mdd;
         reference := SketchPad.reference sp;
         context := ctx;
         sketches := sks |}.

(** [from_dict(cls, data)] *)
Definition from_dict (data : pyval) : M t :=
  v <~ lift (getitem data "version") ;;
  lift (py_assert (eq_str v cls_version)) ;;;
  from_dict_body data.

End SketchPad.
Arguments t : clear implicits.
End SketchPad.

(* ================================================================== *)
(** ** Comparisons the code applies to scores and heap entries *)

Module Cmp.

(** A score is what [minhash_jaccard] returned: None or a number. *)
Definition score : Type := option pynum.

(** [a == b]; None is equal to itself only. *)
Definition score_eq (a b : score) : bool :=
  match a, b with
  | None, None => true
  | Some x, Some y => num_eq x y
  | _, _ => false
  end.

(** [a < b]; None supports no ordering. *)
Definition score_lt (a b : score) : result bool :=
  match a, b with
  | Some x, Some y => Ok (num_lt x y)
  | _, _ => Raise TypeError
  end.

(** [(s1, id1) < (s2, id2)] on tuples: the first components that are not
    equal decide; equal tuples are not less. *)
Definition entry_lt (a b : score * string) : result bool :=
  if score_eq (fst a) (fst b)
  then Ok (String.ltb (snd a) (snd b))
  else score_lt (fst a) (fst b).

End Cmp.
Export Cmp.

(* ================================================================== *)
(** ** heapq and sorted (the Python library functions core.py and main.py
       call) *)

Module Heapq.
Section Heapq.

Variable A : Type.
(** [x < y] on the elements; it may raise. *)
Variable lt : A -> A -> result bool.

(** [heap[pos]] *)
Definition getitem (heap : list A) (pos : nat) : result A :=
  match nth_error heap pos with
  | Some x => Ok x
  | None => Raise IndexError
  end.

(** [heap[pos] = x] *)
Fixpoint setitem (heap : list A) (pos : nat) (x : A) : result (list A) :=
  match heap, pos with
  | [], _ => Raise IndexError
  | _ :: t, O => Ok (x :: t)
  | h :: t, S p => t' <- setitem t p x ;; Ok (h :: t')
  end.

(** The [while pos > startpos] loop of [_siftdown].  [pos] decreases at
    every turn, so [pos] turns are enough; the last line of the match is
    the loop's exit. *)
Fixpoint _siftdown_loop (fuel : nat) (heap : list A) (newitem : A)
    (startpos pos : nat) : result (list A) :=
  match fuel with
  | O => setitem heap pos newitem
  | S fuel' =>
      if Nat.ltb startpos pos then
        let parentpos := Nat.div2 (pos - 1) in
        parent <- getitem heap parentpos ;;
        b <- lt newitem parent ;;
        if b then
          heap' <- setitem heap pos parent ;;
          _siftdown_loop fuel' heap' newitem startpos parentpos
        else setitem heap pos newitem
      else setitem heap pos newitem
  end.

Definition _siftdown (heap : list A) (startpos pos : nat) : result (list A) :=
  newitem <- getitem heap pos ;;
  _siftdown_loop pos heap newitem startpos pos.

(** [heapq.heappush(heap, item)] *)
Definition heappush (heap : list A) (item : A) : result (list A) :=
  _siftdown (heap ++ [item]) 0 (List.length heap).

End Heapq.

Section Sorted.

Variables A K : Type.
Variable key : A -> K.
Variable lt : K -> K -> result bool.

(** Insertion into a list in descending key order, before the first element
    whose key the new key is not less than. *)
Fixpoint insert_desc (x : A) (l : list A) : result (list A) :=
  match l with
  | [] => Ok [x]
  | y :: l' =>
      b <- lt (key x) (key y) ;;
      if b then l'' <- insert_desc x l' ;; Ok (y :: l'')
      else Ok (x :: y :: l')
  end.

(** [sorted(l, key=key, reverse=True)]: the stable sort by descending key
    (elements with equal keys keep the order they had in [l]).  The result
    of a stable sort does not depend on the algorithm when [<] is
    consistent; a [<] that raises aborts the sort. *)
Fixpoint sorted_desc (l : list A) : result (list A) :=
  match l with
  | [] => Ok []
  | x :: l' => s <- sorted_desc l' ;; insert_desc x s
  end.

(** [heapq.nlargest(n, iterable, key=key)], documented as equivalent to
    [sorted(iterable, key=key, reverse=True)[:n]].  Its three code paths
    ([max] for [n == 1], [sorted] for [n >= len(iterable)], a heap of [n]
    entries otherwise) return that slice, ties in iteration order; for
    [n <= 0] it returns the empty list without comparing anything. *)
Definition nlargest (n : Z) (iterable : list A) : result (list A) :=
  if (n <=? 0)%Z then Ok []
  else s <- sorted_desc iterable ;; Ok (firstn (Z.to_nat n) s).

End Sorted.
End Heapq.

(* ================================================================== *)
(** ** class Portfolio (core.py, lines 85-209) *)

(** A tabular frame: [df.columns] and [df[col]]. *)
Record DataFrame : Type := {
  df_columns : list pyval;
  df_getitem : pyval -> Series
}.

Module Portfolio.
Section Portfolio.

Context {Reference Sketch SketchClass SketchData : Type}.
Context {RO : ReferenceOps Reference}.
Context {SO : SketchOps Sketch SketchClass SketchData}.

Local Abbreviation pad := (SketchPad.t Reference Sketch).

(** [self.sketchpads]: SketchPads by identifier, in insertion order. *)
Record t : Type := {
  sketchpads : dict pad
}.

(** [add_sketchpad(self, sketchpad)] *)
Definition add_sketchpad (self : t) (sketchpad : pad) : t :=
  {| sketchpads := dict_set (SketchPad.id sketchpad) sketchpad (sketchpads self) |}.

(** [Portfolio(sketchpads=None)]: [{sp.id: sp for sp in sketchpads or []}] *)
Definition init (sketchpads : list pad) : t :=
  {| sketchpads :=
       fold_left (fun d sp => dict_set (SketchPad.id sp) sp d) sketchpads [] |}.

(** [add_dataframe(self, df)].  [self] is updated in place in Python; the
    updated Portfolio is the value returned here, and an exception leaves
    without one. *)
Definition add_dataframe (self : t) (df : DataFrame) : M t :=
  foldMM
    (fun self col =>
       sp <~ SketchPad.call_from_series [SketchPad.ArgSeries (df_getitem df col)] ;;
       ret (add_sketchpad self sp))
    (df_columns df) self.

(** [x.count()] where [x] may be None *)
Definition count_of (d : option SketchData) : result pynum :=
  match d with
  | Some x => data_count x
  | None => Raise AttributeError
  end.

(** [int(x)] where [x] may be None *)
Definition int_of (d : option SketchData) : result Z :=
  match d with
  | Some x => data_int x
  | None => Raise TypeError
  end.

(** The test [uq > 0.97 * rows] of one SketchPad. *)
Definition is_approx_pk (sketchpad : pad) : result bool :=
  uq <- count_of (SketchPad.get_sketchdata_by_name sketchpad "HyperLogLog") ;;
  rows <- int_of (SketchPad.get_sketchdata_by_name sketchpad "Rows") ;;
  bound <- float_mul_int 0.97%float rows ;;
  Ok (num_gt uq (PyFloat bound)).

(** [get_approx_pk_sketchpads(self)] *)
Definition get_approx_pk_sketchpads (self : t) : result t :=
  foldM
    (fun pf sketchpad =>
       b <- is_approx_pk sketchpad ;;
       if b then Ok (add_sketchpad pf sketchpad) else Ok pf)
    (values (sketchpads self)) (init []).

(** [closest_overlap(self, sketchpad, n=5)]; [n = None] is a call that
    leaves [n] out. *)
Definition closest_overlap (self : t) (sketchpad : pad) (n : option Z)
  : result (list (score * pad)) :=
  let n := match n with Some n => n | None => 5%Z end in
  scores <- foldM
              (fun scores sp =>
                 score <- SketchPad.minhash_jaccard sketchpad sp ;;
                 Heapq.heappush entry_lt scores (score, SketchPad.id sp))
              (values (sketchpads self)) [] ;;
  top_n <- Heapq.nlargest fst score_lt n scores ;;
  mapM (fun si => sp <- dict_getitem (sketchpads self) (snd si) ;; Ok (fst si, sp)) top_n.

(** The request [upload] posts for one SketchPad. *)
Definition upload_request (url auth : string) (skechpad : pad) : Request :=
  {| req_url := (url ++ "/upload_sketchpad")%string;
     req_json := SketchPad.to_dict skechpad;
     req_authorization := auth |}.

(** The [for skechpad in self.sketchpads.values()] loop of [upload], whose
    body ends in [return False]. *)
Fixpoint upload_each (url auth : string) (pads : list pad) : M pyval :=
  match pads with
  | [] => ret PNone
  | skechpad :: rest =>
      response <~ requests_post (upload_request url auth skechpad) ;;
      if negb (Z.eqb (status_code response) 200) then
        logging_error ("Failed to upload sketchpad " ++ SketchPad.id skechpad)%string ;;;
        logging_error (text response) ;;;
        ret (PBool false)
      else upload_each url auth rest
  end.

(** [upload(self, url=None, apiKey=None, batch=False)] *)
Definition upload (self : t) (url apiKey : option string) (batch : bool) : M pyval :=
  let url := match url with
             | None => "http://localhost:8000/api"
             | Some u => u
             end in
  let auth := ("Bearer " ++ format_opt apiKey)%string in
  if batch then
    response <~ requests_post
                  {| req_url := (url ++ "/upload_portfolio")%string;
                     req_json := PList (map SketchPad.to_dict (values (sketchpads self)));
                     req_authorization := auth |} ;;
    (if negb (Z.eqb (status_code response) 200)
     then logging_error ("Error uploading portfolio: " ++ text response)%string
     else ret tt) ;;;
    ret PNone
  else upload_each url auth (values (sketchpads self)).

End Portfolio.
Arguments t : clear implicits.
End Portfolio.

(* ================================================================== *)
(** ** The API handlers (api/main.py) *)

(** [from . import auth, data]: neither module is part of the sources at
    hand.  A handler receives the user [auth.get_token_user] resolved, and
    reads the store through the two functions of [data] below (the
    asynchronous generator [get_sketchpads_by_id] is collected into a
    list by the handler's comprehension). *)
Record User : Type := {
  username : string
}.

Class DataOps (Database Reference Sketch : Type) : Type := {
  get_portfolio : Database -> string -> result (Portfolio.t Reference Sketch);
  get_sketchpads_by_id :
    Database -> list string -> string -> result (list (SketchPad.t Reference Sketch))
}.

Module Api.

(** *** cardhisto (lines 209-238): the upper bin bound

    numpy's binary64 operations are read as the functions on the reals
    they approximate; [np.log] is [ln] on positive arguments.  This
    reading serves bounds on [upper]; the expression on binary64 floats
    itself is [Float64.cardhisto_upper] below. *)

(** [np.ceil(x)] *)
Definition np_ceil (x : R) : Z := (1 - up (- x))%Z.

(** [np.max(cards)]; numpy raises ValueError on an empty array. *)
Definition np_max (cards : list R) : result R :=
  match cards with
  | [] => Raise ValueError
  | c :: cs => Ok (fold_left Rmax cs c)
  end.

(** [upper = pow(2, np.ceil(np.log(np.max(cards) / np.log(2))))] *)
Definition cardhisto_upper (cards : list R) : result R :=
  m <- np_max cards ;;
  Ok (Rpower 2 (IZR (np_ceil (ln (m / ln 2))))).

(** *** get_approx_best_joins (lines 267-288) *)

(** One element of [possibilities]. *)
Record candidate : Type := {
  score : Cmp.score;
  left_sketchpad : pyval;
  right_sketchpad : pyval
}.

Section Joins.

Context {Database Reference Sketch SketchClass SketchData : Type}.
Context {RO : ReferenceOps Reference}.
Context {SO : SketchOps Sketch SketchClass SketchData}.
Context {DO : DataOps Database Reference Sketch}.

Local Abbreviation pad := (SketchPad.t Reference Sketch).

(** The dictionaries one requested SketchPad contributes. *)
Definition candidates_of (sketch : pad) (high_overlaps : list (Cmp.score * pad))
  : list candidate :=
  map (fun ss => {| score := fst ss;
                    left_sketchpad := SketchPad.to_dict sketch;
                    right_sketchpad := SketchPad.to_dict (snd ss) |})
      high_overlaps.

(** The nested loops that fill [possibilities]. *)
Definition possibilities_of (pf : Portfolio.t Reference Sketch) (myspads : list pad)
  : result (list candidate) :=
  foldM
    (fun possibilities sketch =>
       high_overlaps <- Portfolio.closest_overlap pf sketch None ;;
       Ok (possibilities ++ candidates_of sketch high_overlaps))
    myspads [].

(** [get_approx_best_joins(sketchpad_ids, user)] *)
Definition get_approx_best_joins (database : Database)
    (sketchpad_ids : list string) (user : User) : result (list candidate) :=
  pf <- get_portfolio database (username user) ;;
  pf <- Portfolio.get_approx_pk_sketchpads pf ;;
  myspads <- get_sketchpads_by_id database sketchpad_ids (username user) ;;
  possibilities <- possibilities_of pf myspads ;;
  s <- Heapq.sorted_desc score score_lt possibilities ;;
  Ok (firstn 5 s).

End Joins.
End Api.

(* ================================================================== *)
(** ** cardhisto in binary64 (src/sketch/api/main.py, line 220)

    The expression [pow(2, np.ceil(np.log(np.max(cards) / np.log(2))))] on
    numpy's float64.  The division and [np.ceil] are exact IEEE 754
    operations and are written out on binary64 floats.  [np.log], and the
    [pow] that [pow(2, x)] reaches through [np.float64.__rpow__], are the C
    library's: they are taken as parameters. *)

Module Float64.

Class Libm : Type := {
  np_log : float -> float;
  np_pow : float -> float -> float
}.

(** [np.ceil(x)]: the least integral float64 not below [x]; a float64 with
    a non-negative exponent is integral already, an infinity or a NaN is
    returned as it is, and a result of zero reached from below keeps the
    sign ([np.ceil(-0.5)] is [-0.0]). *)
Definition np_ceil (x : float) : float :=
  match Prim2SF x with
  | S754_finite s m e =>
      if (0 <=? e)%Z then x
      else
        let n := if s then Z.neg m else Z.pos m in
        let k := (- ((- n) / 2 ^ (- e)))%Z in
        if (k =? 0)%Z then neg_zero
        else SF2Prim (binary_normalize prec emax k 0 false)
  | _ => x
  end.

(** [np.maximum(a, b)], the step of the reduction behind [np.max]:
    [(a >= b || isnan(a)) ? a : b], which lets a NaN through. *)
Definition np_maximum (a b : float) : float :=
  if (b <=? a)%float || is_nan a then a else b.

(** [np.max(cards)]; numpy raises ValueError on an empty array.  [cards]
    holds the estimates as float64 (an integer maximum is converted by the
    true division that follows, and the conversion is monotone). *)
Definition np_max (cards : list float) : result float :=
  match cards with
  | [] => Raise ValueError
  | c :: cs => Ok (fold_left np_maximum cs c)
  end.

Section Upper.

Context {L : Libm}.

(** [upper = pow(2, np.ceil(np.log(np.max(cards) / np.log(2))))] *)
Definition cardhisto_upper (cards : list float) : result float :=
  m <- np_max cards ;;
  Ok (np_pow 2 (np_ceil (np_log (m / np_log 2)))).

(** The formula the specification gives for the same bound:
    [upper = 2 ^ ceil(max(cards) / log(2))]. *)
Definition spec_upper (cards : list float) : result float :=
  m <- np_max cards ;;
  Ok (np_pow 2 (np_ceil (m / np_log 2))).

End Upper.

End Float64.

(* ================================================================== *)
(** ** An instance of the imported modules, for running the code *)

Module Model.

(** Modelled from the spec: references.py is not among the sources.  The
    two variants of section 3 (a column of an in-memory frame, a column of
    a table in a relational file), serialised with a discriminator tag. *)
Inductive Reference : Type :=
| PandasDataframeColumn (source column : string)
| SqliteColumn (path table column : string).

Definition Reference_to_dict (r : Reference) : pyval :=
  match r with
  | PandasDataframeColumn source column =>
      PDict [("type", PStr "PandasDataframeColumn");
             ("data", PDict [("dataframe_source", PStr source); ("column", PStr column)])]
  | SqliteColumn path table column =>
      PDict [("type", PStr "SqliteColumn");
             ("data", PDict [("path", PStr path); ("table", PStr table);
                             ("column", PStr column)])]
  end.

Definition str_field (d : pyval) (k : string) : result string :=
  v <- getitem d k ;;
  match v with
  | PStr s => Ok s
  | _ => Raise TypeError
  end.

Definition Reference_from_dict (d : pyval) : result Reference :=
  tag <- str_field d "type" ;;
  data <- getitem d "data" ;;
  if String.eqb tag "PandasDataframeColumn" then
    source <- str_field data "dataframe_source" ;;
    column <- str_field data "column" ;;
    Ok (PandasDataframeColumn source column)
  else if String.eqb tag "SqliteColumn" then
    path <- str_field data "path" ;;
    table <- str_field data "table" ;;
    column <- str_field data "column" ;;
    Ok (SqliteColumn path table column)
  else Raise KeyError.

#[global] Instance Reference_ops : ReferenceOps Reference := {
  reference_to_dict := Reference_to_dict;
  reference_from_dict := Reference_from_dict
}.

(** Modelled from the spec: sketches.py is not among the sources.  The
    three sketch types of section 4.1, over columns of strings, with
    estimators of zero error: the row counter, the distinct-count summary
    (whose data answers [count()]) and the similarity fingerprint (whose
    data answers [jaccard(other)] with the Jaccard index of the two value
    sets). *)
Inductive SketchClass : Type := Rows | HyperLogLog | MinHash.

Inductive Sketch : Type :=
| RowsSketch (n : Z)
| HyperLogLogSketch (estimate : pynum)
| MinHashSketch (members : list string).

Definition name (s : Sketch) : string :=
  match s with
  | RowsSketch _ => "Rows"
  | HyperLogLogSketch _ => "HyperLogLog"
  | MinHashSketch _ => "MinHash"
  end.

Fixpoint strings_of (l : list pyval) : result (list string) :=
  match l with
  | [] => Ok []
  | PStr s :: l' => ss <- strings_of l' ;; Ok (s :: ss)
  | _ :: _ => Raise TypeError
  end.

Definition from_series (c : SketchClass) (series : Series) : result Sketch :=
  ss <- strings_of (series_values series) ;;
  match c with
  | Rows => Ok (RowsSketch (Z.of_nat (List.length ss)))
  | HyperLogLog =>
      f <- float_of_int (Z.of_nat (List.length (nodup string_dec ss))) ;;
      Ok (HyperLogLogSketch (PyFloat f))
  | MinHash => Ok (MinHashSketch (nodup string_dec ss))
  end.

Definition to_dict (s : Sketch) : pyval :=
  PDict [("name", PStr (name s));
         ("data", match s with
                  | RowsSketch n => PNum (PyInt n)
                  | HyperLogLogSketch e => PNum e
                  | MinHashSketch m => PList (map PStr m)
                  end)].

Definition from_dict (d : pyval) : result Sketch :=
  tag <- str_field d "name" ;;
  data <- getitem d "data" ;;
  if String.eqb tag "Rows" then
    match data with
    | PNum (PyInt n) => Ok (RowsSketch n)
    | _ => Raise TypeError
    end
  else if String.eqb tag "HyperLogLog" then
    match data with
    | PNum e => Ok (HyperLogLogSketch e)
    | _ => Raise TypeError
    end
  else if String.eqb tag "MinHash" then
    match data with
    | PList l => m <- strings_of l ;; Ok (MinHashSketch m)
    | _ => Raise TypeError
    end
  else Raise KeyError.

Definition count (s : Sketch) : result pynum :=
  match s with
  | HyperLogLogSketch e => Ok e
  | _ => Raise AttributeError
  end.

Definition to_int (s : Sketch) : result Z :=
  match s with
  | RowsSketch n => Ok n
  | _ => Raise TypeError
  end.

Definition jaccard (a b : Sketch) : result pynum :=
  match a, b with
  | MinHashSketch x, MinHashSketch y =>
      let inter := filter (fun s => existsb (String.eqb s) y) (nodup string_dec x) in
      let union := nodup string_dec (x ++ y) in
      match union with
      | [] => Ok (PyFloat 1)
      | _ =>
          i <- float_of_int (Z.of_nat (List.length inter)) ;;
          u <- float_of_int (Z.of_nat (List.length union)) ;;
          Ok (PyFloat (i / u))
      end
  | _, _ => Raise AttributeError
  end.

#[global] Instance Sketch_ops : SketchOps Sketch SketchClass Sketch := {
  all_sketches := [Rows; HyperLogLog; MinHash];
  sketch_from_series := from_series;
  sketch_name := name;
  sketch_data := fun s => s;
  sketch_to_dict := to_dict;
  sketch_from_dict := from_dict;
  data_count := count;
  data_int := to_int;
  data_jaccard := jaccard
}.

(** Modelled from the spec: api/data.py is not among the sources.  The
    store of section 6 as rows (owner, SketchPad); [get_portfolio] builds
    the owner's Portfolio, [get_sketchpads_by_id] yields the owner's
    SketchPads among the requested identifiers. *)
Definition Database : Type := list (string * SketchPad.t Reference Sketch).

Definition owned (db : Database) (user : string) : list (SketchPad.t Reference Sketch) :=
  map snd (filter (fun row => String.eqb (fst row) user) db).

#[global] Instance Data_ops : DataOps Database Reference Sketch := {
  get_portfolio := fun db user => Ok (Portfolio.init (owned db user));
  get_sketchpads_by_id := fun db ids user =>
    Ok (filter (fun sp => existsb (String.eqb (SketchPad.id sp)) ids) (owned db user))
}.

(** A SketchPad with the given identifier and sketches. *)
Definition pad (i column : string) (sks : list Sketch) : SketchPad.t Reference Sketch :=
  {| SketchPad.version := "0.0.1";
     SketchPad.id := i;
     SketchPad.metadata := [("id", PStr i); ("creation_start", PStr "2022-09-01T00:00:00")];
     SketchPad.reference := PandasDataframeColumn "frame" column;
     SketchPad.context := PDict [("column_name", PStr column)];
     SketchPad.sketches := sks |}.

(** A world whose n-th identifier and timestamp are the n-th of two fixed
    sequences and whose server answers every request with [status]. *)
Fixpoint nat_str (n : nat) : string :=
  match n with
  | O => "0"
  | S n' => String "1"%char (nat_str n')
  end.

Definition world (status : Z) : World :=
  {| uuid_source := fun n => ("uuid-" ++ nat_str n)%string;
     uuid_drawn := 0;
     clock_source := fun n => ("t" ++ nat_str n)%string;
     clock_read := 0;
     remote := fun _ _ => {| status_code := status; text := "answer" |};
     sent := [];
     logged := [] |}.

End Model.

(* ================================================================== *)
(** ** The vocabulary of the properties *)

(** [a <= b] on exact values. *)
Definition xle (a b : xval) : Prop :=
  match a, b with
  | NegInf, _ => True
  | _, PosInf => True
  | Fin p, Fin q => (p <= q)%Q
  | _, _ => False
  end.

(** The exact value of a score; None and NaN have none. *)
Definition score_val (s : score) : option xval :=
  match s with
  | Some x => num_val x
  | None => None
  end.

(** A score that is a number other than NaN. *)
Definition is_number (s : score) : Prop := score_val s <> None.

(** [a <= b] on scores that are numbers. *)
Definition score_le (a b : score) : Prop :=
  match score_val a, score_val b with
  | Some x, Some y => xle x y
  | _, _ => False
  end.

(** [a] may stand before [b] in a list sorted by descending key. *)
Definition desc {A K : Type} (key : A -> K) (le : K -> K -> Prop) (a b : A) : Prop :=
  le (key b) (key a).

(** By descending score. *)
Definition by_score {B : Type} (a b : score * B) : Prop := score_le (fst b) (fst a).


(** The world after further requests and log records. *)
Definition after (w : World) (requests : list Request) (records : list string) : World :=
  {| uuid_source := uuid_source w; uuid_drawn := uuid_drawn w;
     clock_source := clock_source w; clock_read := clock_read w;
     remote := remote w;
     sent := sent w ++ requests;
     logged := logged w ++ records |}.

Section Vocabulary.

Context {Reference Sketch SketchClass SketchData : Type}.
Context {RO : ReferenceOps Reference}.
Context {SO : SketchOps Sketch SketchClass SketchData}.

Local Abbreviation pad := (SketchPad.t Reference Sketch).
Local Abbreviation portfolio := (Portfolio.t Reference Sketch).

(** The sketches of a pad that carry [name]. *)
Definition named (self : pad) (name : string) : list Sketch :=
  filter (fun sk => String.eqb (sketch_name sk) name) (SketchPad.sketches self).

(** Every SketchPad is filed under its own identifier, and under no
    other: what [Portfolio(...)] and [add_sketchpad] establish. *)
Definition wf (pf : portfolio) : Prop :=
  NoDup (keys (Portfolio.sketchpads pf)) /\
  Forall (fun kv => fst kv = SketchPad.id (snd kv)) (Portfolio.sketchpads pf).

(** What [minhash_jaccard] returned, None also when it raised. *)
Definition jaccard_of (q sp : pad) : score :=
  match SketchPad.minhash_jaccard q sp with
  | Ok s => s
  | Raise _ => None
  end.

(** The heap entry and the result pair of one SketchPad. *)
Definition entry_of (q sp : pad) : score * string := (jaccard_of q sp, SketchPad.id sp).
Definition pair_of (q sp : pad) : score * pad := (jaccard_of q sp, sp).


(** The outcome of the primary-key test, False when it raised. *)
Definition passes_pk (sp : pad) : bool :=
  match Portfolio.is_approx_pk sp with
  | Ok b => b
  | Raise _ => false
  end.

End Vocabulary.

(* ================================================================== *)
(** ** Data for the examples *)

(** Three columns scored against a query column: Jaccard indices 1/2, 1
    and 0. *)
Definition demo_query : SketchPad.t Model.Reference Model.Sketch :=
  Model.pad "q" "key" [Model.MinHashSketch ["a"; "b"; "c"; "d"]].

Definition demo_portfolio : Portfolio.t Model.Reference Model.Sketch :=
  Portfolio.init
    [Model.pad "p1" "c1" [Model.MinHashSketch ["a"; "b"]];
     Model.pad "p2" "c2" [Model.MinHashSketch ["a"; "b"; "c"; "d"]];
     Model.pad "p3" "c3" [Model.MinHashSketch ["x"]]].

(** The three SketchPads of the specification's example: 990, 500 and 1000
    distinct values over 1000 rows. *)
Definition pk_portfolio : Portfolio.t Model.Reference Model.Sketch :=
  Portfolio.init
    [Model.pad "k1" "c1" [Model.HyperLogLogSketch (PyFloat 990); Model.RowsSketch 1000];
     Model.pad "k2" "c2" [Model.HyperLogLogSketch (PyFloat 500); Model.RowsSketch 1000];
     Model.pad "k3" "c3" [Model.HyperLogLogSketch (PyFloat 1000); Model.RowsSketch 1000]].

(** A column of four strings, three of them distinct. *)
Definition demo_series : Series :=
  {| series_name := PStr "city";
     series_values := [PStr "Oslo"; PStr "Rome"; PStr "Oslo"; PStr "Lima"] |}.

Definition demo_pad : SketchPad.t Model.Reference Model.Sketch :=
  {| SketchPad.version := "0.0.1";
     SketchPad.id := "uuid-0";
     SketchPad.metadata := [("id", PStr "uuid-0"); ("creation_start", PStr "t0");
                            ("creation_end", PStr "t10")];
     SketchPad.reference := Model.PandasDataframeColumn "frame" "city";
     SketchPad.context := PDict [("column_name", PStr "city")];
     SketchPad.sketches := [Model.RowsSketch 4;
                            Model.HyperLogLogSketch (PyFloat 3);
                            Model.MinHashSketch ["Rome"; "Oslo"; "Lima"]] |}.

(** Two SketchPads to upload, and a server that accepts the first request
    it receives and refuses every later one. *)
Definition upload_a : SketchPad.t Model.Reference Model.Sketch :=
  Model.pad "a" "c1" [Model.RowsSketch 3].
Definition upload_b : SketchPad.t Model.Reference Model.Sketch :=
  Model.pad "b" "c2" [Model.RowsSketch 4].
Definition upload_c : SketchPad.t Model.Reference Model.Sketch :=
  Model.pad "c" "c3" [Model.RowsSketch 5].

Definition upload_portfolio : Portfolio.t Model.Reference Model.Sketch :=
  Portfolio.init [upload_a; upload_b; upload_c].

Definition accepts_one : World :=
  {| uuid_source := uuid_source (Model.world 200);
     uuid_drawn := 0;
     clock_source := clock_source (Model.world 200);
     clock_read := 0;
     remote := fun history _ =>
                 match history with
                 | [] => {| status_code := 200; text := "ok" |}
                 | _ :: _ => {| status_code := 500; text := "refused" |}
                 end;
     sent := [];
     logged := [] |}.

(** A store with three SketchPads of ann (a key column, a column of few
    distinct values, and the column she asks about) and one of bob. *)
Definition join_key : SketchPad.t Model.Reference Model.Sketch :=
  Model.pad "k1" "customer_id"
    [Model.HyperLogLogSketch (PyFloat 1000); Model.RowsSketch 1000;
     Model.MinHashSketch ["a"; "b"]].
Definition join_other : SketchPad.t Model.Reference Model.Sketch :=
  Model.pad "k2" "country"
    [Model.HyperLogLogSketch (PyFloat 500); Model.RowsSketch 1000].
Definition join_asked : SketchPad.t Model.Reference Model.Sketch :=
  Model.pad "f1" "customer"
    [Model.HyperLogLogSketch (PyFloat 3); Model.RowsSketch 4;
     Model.MinHashSketch ["a"; "b"; "c"]].
Definition join_foreign : SketchPad.t Model.Reference Model.Sketch :=
  Model.pad "k3" "order_id"
    [Model.HyperLogLogSketch (PyFloat 10); Model.RowsSketch 10;
     Model.MinHashSketch ["a"]].

Definition join_store : Model.Database :=
  [("ann", join_key); ("ann", join_other); ("bob", join_foreign); ("ann", join_asked)].

(** The C library's [log] and [pow] at the arguments the examples of
    [cardhisto] consult, as binary64 values: log(2), log(1 / log(2)),
    log(0x1.47c9fd10d250ep+2 / log(2)) and log(0); 2 to the powers 1, 2
    and minus infinity.  Elsewhere the table answers NaN. *)
Definition log_consulted : list (float * float) :=
  [(2, 0x1.62e42fefa39efp-1); (0x1.71547652b82fep+0, 0x1.774f29bdd6b9ep-2);
   (0x1.d8e64b8d4ddaep+2, 2); (0, neg_infinity)]%float.

Definition pow_2_consulted : list (float * float) :=
  [(1, 2); (2, 4); (neg_infinity, 0)]%float.

Fixpoint consult (table : list (float * float)) (x : float) : float :=
  match table with
  | [] => nan
  | (a, v) :: table' => if (x =? a)%float then v else consult table' x
  end.

Definition libm_consulted : Float64.Libm :=
  {| Float64.np_log := consult log_consulted;
     Float64.np_pow := fun x y => if (x =? 2)%float then consult pow_2_consulted y
                                  else nan |}.

(* ================================================================== *)
(** ** class Portfolio: the remaining constructors, and find_joinables
       (core.py, lines 89-91, 110-125, 165-183) *)

Module Client.
Section Client.

Context {Reference Sketch SketchClass SketchData : Type}.
Context {RO : ReferenceOps Reference}.
Context {SO : SketchOps Sketch SketchClass SketchData}.

Local Abbreviation pad := (SketchPad.t Reference Sketch).
Local Abbreviation portfolio := (Portfolio.t Reference Sketch).

(** [from_dataframe(cls, df)]: [cls().add_dataframe(df)] *)
Definition from_dataframe (df : DataFrame) : M portfolio :=
  Portfolio.add_dataframe (Portfolio.init []) df.

(** [add_dataframes(self, dfs)] *)
Definition add_dataframes (self : portfolio) (dfs : list DataFrame) : M portfolio :=
  foldMM (fun self df => Portfolio.add_dataframe self df) dfs self.

(** [from_dataframes(cls, dfs)] *)
Definition from_dataframes (dfs : list DataFrame) : M portfolio :=
  add_dataframes (Portfolio.init []) dfs.

(** [from_sketchpad(cls, sketchpad)] *)
Definition from_sketchpad (sketchpad : pad) : portfolio :=
  Portfolio.add_sketchpad (Portfolio.init []) sketchpad.

(** [requests.get(url, json=..., headers={"Authorization": ...})]: the
    world keeps one trace of the requests made, by URL, body and
    authorization. *)
Definition requests_get (rq : Request) : M Response :=
  fun w =>
    (Ok (remote w (sent w) rq),
     {| uuid_source := uuid_source w; uuid_drawn := uuid_drawn w;
        clock_source := clock_source w; clock_read := clock_read w;
        remote := remote w; sent := sent w ++ [rq]; logged := logged w |}).

(** The two operations of other libraries that [find_joinables] applies:
    [resp.json()] of requests, and the formatting of a value by the
    format specification [0.4f]. *)
Variable response_json : Response -> result pyval.
Variable format_04f : pyval -> result string.

(** [url or "http://localhost:8000/api"]: None and the empty string both
    give the default. *)
Definition url_or_default (url : option string) : string :=
  match url with
  | Some u => if String.eqb u "" then "http://localhost:8000/api" else u
  | None => "http://localhost:8000/api"
  end.

(** The request of [find_joinables] after the upload. *)
Definition joinables_request (self : portfolio) (url apiKey : option string) : Request :=
  {| req_url := (url_or_default url ++ "/get_approx_best_joins")%string;
     req_json := PList (map PStr (keys (Portfolio.sketchpads self)));
     req_authorization := ("Bearer " ++ format_opt apiKey)%string |}.

(** [right_sketchpad.reference_repr]: class SketchPad defines the methods
    [get_sketch_by_name], [get_sketchdata_by_name], [minhash_jaccard],
    [to_dict], [from_series] and [from_dict], and its instances the
    attributes [version], [id], [metadata], [reference], [context] and
    [sketches]; the lookup of any other name raises AttributeError. *)
Definition reference_repr (self : pad) : result string :=
  Raise AttributeError.

(** The argument of [print] for one element [x] of the answer, its parts
    evaluated from left to right. *)
Definition joinable_line (x : pyval) : M string :=
  left_sketchpad <~ (d <~ lift (getitem x "left_sketchpad") ;; SketchPad.from_dict d) ;;
  right_sketchpad <~ (d <~ lift (getitem x "right_sketchpad") ;; SketchPad.from_dict d) ;;
  lift (sc <- getitem x "score" ;;
        s1 <- format_04f sc ;;
        rf <- dict_getitem (SketchPad.metadata left_sketchpad) "reference" ;;
        dt <- getitem rf "data" ;;
        col <- getitem dt "column" ;;
        s2 <- SketchPad.as_str col ;;
        s3 <- reference_repr right_sketchpad ;;
        Ok (s1 ++ "  " ++ s2 ++ " -- " ++ s3)%string).

(** The [for x in resp.json()] loop; [out] is what has been printed. *)
Fixpoint print_joinables (xs : list pyval) (w : World) (out : list string)
  : result unit * World * list string :=
  match xs with
  | [] => (Ok tt, w, out)
  | x :: xs' =>
      match joinable_line x w with
      | (Ok line, w') => print_joinables xs' w' (out ++ [line])
      | (Raise e, w') => (Raise e, w', out)
      end
  end.

(** [find_joinables(self, url=None, apiKey=None)] *)
Definition find_joinables (self : portfolio) (url apiKey : option string)
    (w : World) (out : list string) : result unit * World * list string :=
  match Portfolio.upload self url apiKey false w with
  | (Raise e, w1) => (Raise e, w1, out)
  | (Ok _, w1) =>
      match requests_get (joinables_request self url apiKey) w1 with
      | (Raise e, w2) => (Raise e, w2, out)
      | (Ok resp, w2) =>
          if negb (Z.eqb (status_code resp) 200) then
            (Raise (Exception ("Error getting joinables: " ++ text resp)%string), w2, out)
          else
            match (j <- response_json resp ;; iter j) with
            | Raise e => (Raise e, w2, out)
            | Ok xs => print_joinables xs w2 out
            end
      end
  end.

End Client.
End Client.

(* ================================================================== *)
(** ** The other handlers of api/main.py that work on SketchPads
       (lines 159-181, 241-264, 291-301) *)

(** Python's [q in s] on strings. *)
Fixpoint contains (q s : string) : bool :=
  String.prefix q s
  || match s with
     | EmptyString => false
     | String _ s' => contains q s'
     end.

(** [templates.TemplateResponse(name, context)]: the template's name and
    the entries of the context other than the request. *)
Record SearchPage (Reference Sketch : Type) : Type := {
  search_template : string;
  search_user : User;
  search_portfolio : Portfolio.t Reference Sketch;
  search_q : string
}.

Record ComponentPage (Reference Sketch : Type) : Type := {
  component_template : string;
  component_portfolio : Portfolio.t Reference Sketch
}.

Module Handlers.
Section Handlers.

Context {Database Reference Sketch SketchClass SketchData : Type}.
Context {RO : ReferenceOps Reference}.
Context {SO : SketchOps Sketch SketchClass SketchData}.
Context {DO : DataOps Database Reference Sketch}.

Local Abbreviation pad := (SketchPad.t Reference Sketch).
Local Abbreviation portfolio := (Portfolio.t Reference Sketch).

(** [x.reference.to_searchable_string()] of references.py. *)
Variable to_searchable_string : Reference -> string.

(** [models.SketchPad], the validated payload: [sketchpad.dict()] and what
    [print(sketchpad)] writes. *)
Variable Wire : Type.
Variable wire_dict : Wire -> pyval.
Variable wire_str : Wire -> string.

(** [data.add_sketchpad(database, username, sketchpad)], and the
    [asyncio.gather] of one such call per payload, which runs them
    concurrently: the exception if any, and the store they leave. *)
Variable data_add_sketchpad : Database -> string -> Wire -> result unit * Database.
Variable gather_add_sketchpad : Database -> string -> list Wire -> result unit * Database.

(** What a handler works on: the world, the store, the standard output. *)
Record Server : Type := {
  world : World;
  store : Database;
  stdout : list string
}.

(** [search(request, user, q="")] *)
Definition search (database : Database) (user : User) (q : string)
  : result (SearchPage Reference Sketch) :=
  pf <- (if negb (String.eqb q "") then
           pf <- get_portfolio database (username user) ;;
           let to_keep :=
             filter (fun x => contains q (to_searchable_string (SketchPad.reference x)))
                    (values (Portfolio.sketchpads pf)) in
           Ok (Portfolio.init to_keep)
         else Ok (Portfolio.init [])) ;;
  Ok {| search_template := "page/search.html";
        search_user := user;
        search_portfolio := pf;
        search_q := q |}.

(** [upload_sketchpad(sketchpad, user)] *)
Definition upload_sketchpad (sketchpad : Wire) (user : User) (s : Server)
  : result pyval * Server :=
  let out := stdout s ++ [wire_str sketchpad] in
  match SketchPad.from_dict (Sketch := Sketch) (SketchClass := SketchClass)
          (wire_dict sketchpad) (world s) with
  | (Raise e, w) => (Raise e, {| world := w; store := store s; stdout := out |})
  | (Ok _, w) =>
      match data_add_sketchpad (store s) (username user) sketchpad with
      | (Raise e, db) => (Raise e, {| world := w; store := db; stdout := out |})
      | (Ok _, db) =>
          (Ok (PDict [("status", PStr "ok")]),
           {| world := w; store := db; stdout := out |})
      end
  end.

(** The loop [for sketchpad in sketchpads: SketchPad.from_dict(...)]. *)
Definition validate_all (sketchpads : list Wire) : M unit :=
  foldMM (fun _ sketchpad =>
            SketchPad.from_dict (Sketch := Sketch) (SketchClass := SketchClass)
              (wire_dict sketchpad) ;;;
            ret tt)
         sketchpads tt.

(** [upload_portfolio(sketchpads, user)] *)
Definition upload_portfolio (sketchpads : list Wire) (user : User) (s : Server)
  : result pyval * Server :=
  match validate_all sketchpads (world s) with
  | (Raise e, w) => (Raise e, {| world := w; store := store s; stdout := stdout s |})
  | (Ok _, w) =>
      match gather_add_sketchpad (store s) (username user) sketchpads with
      | (Raise e, db) => (Raise e, {| world := w; store := db; stdout := stdout s |})
      | (Ok _, db) =>
          (Ok (PDict [("status", PStr "ok")]),
           {| world := w; store := db; stdout := stdout s |})
      end
  end.

(** A list comprehension in the world. *)
Fixpoint mapMM {A B} (f : A -> M B) (l : list A) : M (list B) :=
  match l with
  | [] => ret []
  | x :: l' => y <~ f x ;; ys <~ mapMM f l' ;; ret (y :: ys)
  end.

(** The second [get_approx_best_joins(request, best_joins)], served under
    /component; [best_joins] is what the first one returned. *)
Definition component_get_approx_best_joins (best_joins : list Api.candidate)
  : M (ComponentPage Reference Sketch) :=
  pads <~ mapMM (fun x => SketchPad.from_dict (SketchClass := SketchClass)
                            (Api.right_sketchpad x)) best_joins ;;
  ret {| component_template := "component/references.html";
         component_portfolio := Portfolio.init pads |}.

End Handlers.
End Handlers.

(** What [to_dict] followed by [from_dict] needs of a SketchPad: the
    current version, its identifier in its metadata, and a reference and
    sketches that survive their own serialisation. *)
Definition serialisable {Reference Sketch SketchClass SketchData : Type}
    {RO : ReferenceOps Reference} {SO : SketchOps Sketch SketchClass SketchData}
    (sp : SketchPad.t Reference Sketch) : Prop :=
  SketchPad.version sp = "0.0.1" /\
  dict_get "id" (SketchPad.metadata sp) = Some (PStr (SketchPad.id sp)) /\
  reference_from_dict (reference_to_dict (SketchPad.reference sp))
    = Ok (SketchPad.reference sp) /\
  Forall (fun s => sketch_from_dict (sketch_to_dict s) = Ok s) (SketchPad.sketches sp).


(** The world after [uuids] identifiers were drawn and the clock was read
    [reads] times. *)
Definition advanced (w : World) (uuids reads : nat) : World :=
  {| uuid_source := uuid_source w; uuid_drawn := uuids + uuid_drawn w;
     clock_source := clock_source w; clock_read := reads + clock_read w;
     remote := remote w; sent := sent w; logged := logged w |}.

(** A frame without columns. *)
Definition no_columns (df : DataFrame) : bool :=
  match df_columns df with
  | [] => true
  | _ :: _ => false
  end.

(** Modelled from the spec: references.py is not among the sources.  The
    searchable string of a reference combines its fields (section 4.2). *)
Definition demo_searchable (r : Model.Reference) : string :=
  match r with
  | Model.PandasDataframeColumn source column => (source ++ " " ++ column)%string
  | Model.SqliteColumn path table column => (path ++ " " ++ table ++ " " ++ column)%string
  end.

(** A store step for the examples: the payload is a document, kept as it
    is parsed. *)
Definition demo_add (db : Model.Database) (user : string) (doc : pyval)
  : result unit * Model.Database :=
  match SketchPad.from_dict (SketchClass := Model.SketchClass) doc (Model.world 200) with
  | (Ok sp, _) => (Ok tt, db ++ [(user, sp)])
  | (Raise e, _) => (Raise e, db)
  end.

Definition demo_gather (db : Model.Database) (user : string) (docs : list pyval)
  : result unit * Model.Database :=
  fold_left (fun acc doc =>
               match acc with
               | (Ok _, db') => demo_add db' user doc
               | (Raise e, db') => (Raise e, db')
               end)
            docs (Ok tt, db).

(** The serialised [demo_pad] with the version "0.0.2". *)
Definition stale_document : pyval :=
  PDict (dict_set "version" (PStr "0.0.2")
           match SketchPad.to_dict demo_pad with PDict d => d | _ => [] end).

(* ================================================================== *)
(** * Properties *)

Unset Implicit Arguments.

(** ** Lookup of a sketch by name *)

Section SketchLookup.

Context {Reference Sketch SketchClass SketchData : Type}.
Context {RO : ReferenceOps Reference}.
Context {SO : SketchOps Sketch SketchClass SketchData}.

Local Abbreviation pad := (SketchPad.t Reference Sketch).

Lemma get_sketch_by_name_spec (self : pad) (name : string) :
  SketchPad.get_sketch_by_name self name =
  match named self name with
  | [sk] => Some sk
  | _ => None
  end.
Proof.
  unfold SketchPad.get_sketch_by_name, named.
  destruct (filter _ _) as [|a [|b l]]; reflexivity.
Qed.

(** C10: [get_sketch_by_name] returns a sketch exactly when it is the only
    sketch of the pad that carries the name; with no such sketch, or with
    two or more, it returns None, and so does [get_sketchdata_by_name]. *)
Theorem get_sketch_by_name_unique (self : pad) (name : string) :
  (forall sk, SketchPad.get_sketch_by_name self name = Some sk <->
              named self name = [sk]) /\
  (List.length (named self name) <> 1%nat ->
     SketchPad.get_sketch_by_name self name = None /\
     SketchPad.get_sketchdata_by_name self name = None).
Proof.
  split.
  - intro sk. rewrite get_sketch_by_name_spec.
    destruct (named self name) as [|a [|b l]]; split; intro H;
      try discriminate; inversion H; reflexivity.
  - intro H. unfold SketchPad.get_sketchdata_by_name.
    rewrite get_sketch_by_name_spec.
    destruct (named self name) as [|a [|b l]]; simpl in H;
      try (split; reflexivity); contradiction H; reflexivity.
Qed.

Lemma get_sketchdata_by_name_some (self : pad) (name : string) (sk : Sketch) :
  named self name = [sk] ->
  SketchPad.get_sketchdata_by_name self name = Some (sketch_data sk).
Proof.
  intro H. unfold SketchPad.get_sketchdata_by_name.
  rewrite get_sketch_by_name_spec, H. reflexivity.
Qed.

End SketchLookup.

(** A pad with two sketches named Rows: the lookup picks neither. *)
Example get_sketch_by_name_duplicate :
  let sp := Model.pad "a" "c" [Model.RowsSketch 3; Model.RowsSketch 4] in
  SketchPad.get_sketch_by_name sp "Rows" = None /\
  SketchPad.get_sketchdata_by_name sp "Rows" = None /\
  SketchPad.get_sketch_by_name (Model.pad "a" "c" [Model.RowsSketch 3]) "Rows"
    = Some (Model.RowsSketch 3).
Proof. repeat split. Qed.

(** C10 at a pad with two sketches named Rows: more than one sketch
    carries the name, and both lookups return None. *)
Lemma get_sketch_by_name_unique_witness :
  let sp := Model.pad "a" "c" [Model.RowsSketch 3; Model.RowsSketch 4] in
  SketchPad.get_sketch_by_name sp "Rows" = None /\
  SketchPad.get_sketchdata_by_name sp "Rows" = None.
Proof.
  apply (proj2 (get_sketch_by_name_unique
                  (Model.pad "a" "c" [Model.RowsSketch 3; Model.RowsSketch 4]) "Rows")).
  simpl. discriminate.
Defined.

(** ** The version gate of from_dict *)

Section VersionGate.

Context {Reference Sketch SketchClass SketchData : Type}.
Context {RO : ReferenceOps Reference}.
Context {SO : SketchOps Sketch SketchClass SketchData}.

Lemma eq_str_true (v : pyval) (s : string) : eq_str v s = true <-> v = PStr s.
Proof.
  destruct v; simpl; try (split; [discriminate | intro H; discriminate H]).
  rewrite String.eqb_eq. split; [intros -> | intro H; inversion H]; reflexivity.
Qed.

(** C2: a document whose version is anything but the string "0.0.1" makes
    [from_dict] raise at its assertion, before anything else of the
    document is read and before the world is touched; on a document whose
    version is "0.0.1" the assertion passes and [from_dict] is the rest of
    its body. *)
Theorem from_dict_version_gate (data : pyval) (w : World) :
  (forall v, getitem data "version" = Ok v -> v <> PStr "0.0.1" ->
     SketchPad.from_dict (Sketch := Sketch) data w = (Raise AssertionError, w)) /\
  (getitem data "version" = Ok (PStr "0.0.1") ->
     SketchPad.from_dict (Sketch := Sketch) data w = SketchPad.from_dict_body data w).
Proof.
  unfold SketchPad.from_dict, bindM, lift, SketchPad.cls_version. split.
  - intros v Hv Hne. rewrite Hv.
    destruct (eq_str v "0.0.1") eqn:E.
    + apply eq_str_true in E. contradiction.
    + reflexivity.
  - intros Hv. rewrite Hv. simpl. reflexivity.
Qed.

End VersionGate.

(** A document that is valid but for its version, and the same document
    with the current version. *)
Example from_dict_version_examples :
  let sp := Model.pad "a" "c" [Model.RowsSketch 3] in
  let doc v := PDict (dict_set "version" (PStr v)
                        match SketchPad.to_dict sp with PDict d => d | _ => [] end) in
  fst (SketchPad.from_dict (Sketch := Model.Sketch) (doc "0.0.2") (Model.world 200))
    = Raise AssertionError /\
  fst (SketchPad.from_dict (Sketch := Model.Sketch) (doc "0.0.1") (Model.world 200))
    = Ok sp.
Proof. split; vm_compute; reflexivity. Qed.

(** C2 at the serialised [demo_pad] with its version replaced by "0.0.2". *)
Lemma from_dict_version_gate_witness :
  let doc := PDict (dict_set "version" (PStr "0.0.2")
                      match SketchPad.to_dict demo_pad with PDict d => d | _ => [] end) in
  SketchPad.from_dict (Sketch := Model.Sketch) (SketchClass := Model.SketchClass)
    doc (Model.world 200)
  = (Raise AssertionError, Model.world 200).
Proof.
  apply (proj1 (from_dict_version_gate (Sketch := Model.Sketch)
                  (SketchClass := Model.SketchClass) _ (Model.world 200))
               (PStr "0.0.2")).
  - reflexivity.
  - discriminate.
Defined.

(* ================================================================== *)
(** ** The order of scores *)

Section ScoreOrder.

Lemma xlt_false_iff (a b : xval) : xlt a b = false <-> xle b a.
Proof.
  destruct a as [|p|], b as [|q|]; simpl; try tauto; try (split; [discriminate | tauto]).
  destruct (Qcompare p q) eqn:E.
  - apply Qeq_alt in E. split; [intros _ | reflexivity].
    rewrite E. apply Qle_refl.
  - apply Qlt_alt in E. split; [discriminate | intro H].
    exfalso. exact (Qlt_not_le _ _ E H).
  - apply Qgt_alt in E. split; [intros _ | reflexivity].
    apply Qlt_le_weak. exact E.
Qed.

Lemma xlt_true_xle (a b : xval) : xlt a b = true -> xle a b.
Proof.
  destruct a as [|p|], b as [|q|]; simpl; try tauto; try discriminate.
  destruct (Qcompare p q) eqn:E; try discriminate.
  intros _. apply Qlt_le_weak, Qlt_alt. exact E.
Qed.

Lemma xle_trans (a b c : xval) : xle a b -> xle b c -> xle a c.
Proof.
  destruct a as [|p|], b as [|q|], c as [|r|]; simpl; try tauto.
  apply Qle_trans.
Qed.

Lemma score_le_trans (a b c : score) : score_le a b -> score_le b c -> score_le a c.
Proof.
  unfold score_le.
  destruct (score_val a), (score_val b), (score_val c); try tauto.
  apply xle_trans.
Qed.

Lemma score_lt_number (a b : score) :
  is_number a -> is_number b ->
  exists c, score_lt a b = Ok c /\
            (c = false -> score_le b a) /\ (c = true -> score_le a b).
Proof.
  unfold is_number, score_le.
  destruct a as [x|], b as [y|]; simpl; try tauto.
  intros Hx Hy. exists (num_lt x y). split; [reflexivity|].
  unfold num_lt.
  destruct (num_val x) as [vx|]; [|tauto].
  destruct (num_val y) as [vy|]; [|tauto].
  split; [apply xlt_false_iff | apply xlt_true_xle].
Qed.

Lemma entry_lt_some (a b : score * string) :
  fst a <> None -> fst b <> None -> exists c, entry_lt a b = Ok c.
Proof.
  destruct a as [[x|] i], b as [[y|] j]; simpl; try tauto.
  intros _ _. unfold entry_lt. simpl.
  destruct (num_eq x y); eexists; reflexivity.
Qed.

End ScoreOrder.

(* ================================================================== *)
(** ** heappush and sorted *)

Section HeapFacts.

Variable A : Type.
Variable lt : A -> A -> result bool.
(** The elements [lt] compares without raising. *)
Variable P : A -> Prop.
Hypothesis lt_ok : forall a b, P a -> P b -> exists c, lt a b = Ok c.

Lemma setitem_ok (heap : list A) (pos : nat) (x : A) :
  (pos < List.length heap)%nat ->
  exists h', Heapq.setitem heap pos x = Ok h'.
Proof.
  revert pos. induction heap as [|h t IH]; intros pos Hlt; simpl in *; [lia|].
  destruct pos as [|p]; [eexists; reflexivity|].
  destruct (IH p) as [t' Ht]; [lia|]. rewrite Ht. eexists. reflexivity.
Qed.

Lemma setitem_perm (heap : list A) (pos : nat) (x a : A) (h' : list A) :
  nth_error heap pos = Some a ->
  Heapq.setitem heap pos x = Ok h' ->
  Permutation (x :: heap) (a :: h').
Proof.
  revert pos h'. induction heap as [|h t IH]; intros pos h' Hn Hs.
  - destruct pos; discriminate.
  - destruct pos as [|p]; simpl in *.
    + inversion Hn; inversion Hs; subst. apply perm_swap.
    + destruct (Heapq.setitem t p x) as [t'|] eqn:E; [|discriminate].
      inversion Hs; subst.
      apply perm_trans with (h :: x :: t); [apply perm_swap|].
      apply perm_trans with (h :: a :: t'); [|apply perm_swap].
      apply perm_skip. eapply IH; eauto.
Qed.

Lemma setitem_nth_other (heap : list A) (pos j : nat) (x : A) (h' : list A) :
  Heapq.setitem heap pos x = Ok h' -> j <> pos ->
  nth_error h' j = nth_error heap j.
Proof.
  revert pos j h'. induction heap as [|h t IH]; intros pos j h' Hs Hne.
  - destruct pos; discriminate.
  - destruct pos as [|p]; simpl in *.
    + inversion Hs; subst. destruct j; [contradiction|reflexivity].
    + destruct (Heapq.setitem t p x) as [t'|] eqn:E; [|discriminate].
      inversion Hs; subst. destruct j; [reflexivity|].
      simpl. eapply IH; eauto.
Qed.

Lemma setitem_length (heap : list A) (pos : nat) (x : A) (h' : list A) :
  Heapq.setitem heap pos x = Ok h' -> List.length h' = List.length heap.
Proof.
  revert pos h'. induction heap as [|h t IH]; intros pos h' Hs.
  - destruct pos; discriminate.
  - destruct pos as [|p]; simpl in *.
    + inversion Hs; reflexivity.
    + destruct (Heapq.setitem t p x) as [t'|] eqn:E; [|discriminate].
      inversion Hs; subst. simpl. f_equal. eapply IH; eauto.
Qed.

Lemma setitem_same (heap : list A) (pos : nat) (x : A) :
  nth_error heap pos = Some x -> Heapq.setitem heap pos x = Ok heap.
Proof.
  revert pos. induction heap as [|h t IH]; intros pos Hn.
  - destruct pos; discriminate.
  - destruct pos as [|p]; simpl in *.
    + inversion Hn; reflexivity.
    + rewrite (IH _ Hn). reflexivity.
Qed.

(** Moving the parent down and writing the new item in its place is a
    transposition of what writing the new item at [i] gives. *)
Lemma setitem_transpose (heap h1 h2 h0 : list A) (i j : nat) (x y : A) :
  i <> j -> (i < List.length heap)%nat ->
  nth_error heap j = Some y ->
  Heapq.setitem heap i y = Ok h1 ->
  Heapq.setitem h1 j x = Ok h2 ->
  Heapq.setitem heap i x = Ok h0 ->
  Permutation h2 h0.
Proof.
  intros Hij Hi Hj H1 H2 H0.
  destruct (nth_error heap i) as [a|] eqn:Ha;
    [|apply nth_error_None in Ha; lia].
  pose proof (setitem_perm _ _ _ _ _ Ha H1) as P1.
  assert (Hj1 : nth_error h1 j = Some y)
    by (rewrite (setitem_nth_other _ _ _ _ _ H1); auto).
  pose proof (setitem_perm _ _ _ _ _ Hj1 H2) as P2.
  pose proof (setitem_perm _ _ _ _ _ Ha H0) as P3.
  apply Permutation_cons_inv with (a := y).
  apply Permutation_cons_inv with (a := a).
  apply perm_trans with (a :: x :: h1).
  { apply perm_skip. apply Permutation_sym. exact P2. }
  apply perm_trans with (x :: a :: h1); [apply perm_swap|].
  apply perm_trans with (x :: y :: heap).
  { apply perm_skip. apply Permutation_sym. exact P1. }
  apply perm_trans with (y :: x :: heap); [apply perm_swap|].
  apply perm_trans with (y :: a :: h0); [apply perm_skip; exact P3|].
  apply perm_swap.
Qed.

Lemma div2_pred_lt (pos : nat) : (0 < pos)%nat -> (Nat.div2 (pos - 1) < pos)%nat.
Proof.
  intro H. pose proof (Nat.div2_decr (pos - 1) (pos - 1)). lia.
Qed.

(** The loop of [_siftdown] never needs more than [pos] turns. *)
Lemma _siftdown_loop_fuel (fuel1 fuel2 : nat) (heap : list A) (newitem : A)
    (startpos pos : nat) :
  (pos <= fuel1)%nat -> (pos <= fuel2)%nat ->
  Heapq._siftdown_loop lt fuel1 heap newitem startpos pos =
  Heapq._siftdown_loop lt fuel2 heap newitem startpos pos.
Proof.
  revert fuel2 heap pos.
  induction fuel1 as [|f1 IH]; intros fuel2 heap pos H1 H2.
  - assert (pos = 0)%nat by lia. subst.
    destruct fuel2; simpl; [reflexivity|].
    destruct startpos; reflexivity.
  - destruct fuel2 as [|f2].
    + assert (pos = 0)%nat by lia. subst. simpl.
      destruct startpos; reflexivity.
    + simpl. destruct (Nat.ltb startpos pos) eqn:E; [|reflexivity].
      apply Nat.ltb_lt in E.
      destruct (Heapq.getitem heap (Nat.div2 (pos - 1))) as [parent|]; [|reflexivity].
      simpl. destruct (lt newitem parent) as [b|]; [|reflexivity].
      simpl. destruct b; [|reflexivity].
      destruct (Heapq.setitem heap pos parent) as [heap'|]; [|reflexivity].
      simpl. pose proof (div2_pred_lt pos). apply IH; lia.
Qed.

Lemma _siftdown_loop_perm (fuel : nat) (heap : list A) (newitem : A) (pos : nat) :
  (pos < List.length heap)%nat -> Forall P heap -> P newitem ->
  exists h0 h',
    Heapq.setitem heap pos newitem = Ok h0 /\
    Heapq._siftdown_loop lt fuel heap newitem 0 pos = Ok h' /\
    Permutation h' h0.
Proof.
  revert heap pos. induction fuel as [|f IH]; intros heap pos Hpos HP Hn.
  - destruct (setitem_ok heap pos newitem Hpos) as [h0 H0].
    exists h0, h0. simpl. auto.
  - destruct (setitem_ok heap pos newitem Hpos) as [h0 H0].
    exists h0. simpl.
    destruct (Nat.ltb 0 pos) eqn:E; [|exists h0; auto].
    apply Nat.ltb_lt in E.
    pose proof (div2_pred_lt pos E) as Hpar.
    unfold Heapq.getitem.
    destruct (nth_error heap (Nat.div2 (pos - 1))) as [parent|] eqn:Hp;
      [|apply nth_error_None in Hp; lia].
    simpl.
    assert (Pp : P parent)
      by (rewrite Forall_forall in HP; apply HP; eapply nth_error_In; eauto).
    destruct (lt_ok _ _ Hn Pp) as [b Hb]. rewrite Hb. simpl.
    destruct b; [|exists h0; auto].
    destruct (setitem_ok heap pos parent Hpos) as [h1 H1]. rewrite H1. simpl.
    assert (HP1 : Forall P h1).
    { destruct (nth_error heap pos) as [a|] eqn:Ha;
        [|apply nth_error_None in Ha; lia].
      pose proof (setitem_perm _ _ _ _ _ Ha H1) as Q.
      assert (Forall P (a :: h1)) as F.
      { eapply Permutation_Forall; [exact Q|]. constructor; assumption. }
      inversion F; assumption. }
    destruct (IH h1 (Nat.div2 (pos - 1))) as (h2 & h' & H2 & Hl & Hperm); auto.
    { rewrite (setitem_length _ _ _ _ H1). lia. }
    exists h'. repeat split; auto.
    apply perm_trans with h2; [exact Hperm|].
    eapply setitem_transpose with (i := pos) (j := Nat.div2 (pos - 1)); eauto; lia.
Qed.

(** [heappush] on elements that compare without raising: the heap gains the
    item and keeps everything else. *)
Lemma heappush_perm (heap : list A) (item : A) :
  Forall P heap -> P item ->
  exists h', Heapq.heappush lt heap item = Ok h' /\ Permutation h' (item :: heap).
Proof.
  intros HP Hi. unfold Heapq.heappush, Heapq._siftdown, Heapq.getitem.
  assert (Hn : nth_error (heap ++ [item]) (List.length heap) = Some item).
  { rewrite nth_error_app2, Nat.sub_diag; [reflexivity|lia]. }
  rewrite Hn. simpl.
  destruct (_siftdown_loop_perm (List.length heap) (heap ++ [item]) item (List.length heap))
    as (h0 & h' & H0 & Hl & Hperm).
  - rewrite length_app. simpl. lia.
  - apply Forall_app. split; [assumption|]. constructor; [assumption|constructor].
  - assumption.
  - exists h'. split; [exact Hl|].
    rewrite (setitem_same _ _ _ Hn) in H0. inversion H0; subst.
    apply perm_trans with (heap ++ [item]); [exact Hperm|].
    apply Permutation_sym, Permutation_cons_append.
Qed.

End HeapFacts.

Section SortFacts.

Variables A K : Type.
Variable key : A -> K.
Variable lt : K -> K -> result bool.
(** The keys [lt] orders, and the order it decides on them. *)
Variable V : K -> Prop.
Variable le : K -> K -> Prop.
Hypothesis lt_ok : forall a b, V a -> V b ->
  exists c, lt a b = Ok c /\ (c = false -> le b a) /\ (c = true -> le a b).
Hypothesis le_trans : forall a b c, le a b -> le b c -> le a c.

Lemma insert_desc_ok (x : A) (l : list A) :
  V (key x) -> Forall (fun y => V (key y)) l -> StronglySorted (desc key le) l ->
  exists l', Heapq.insert_desc key lt x l = Ok l' /\
             Permutation l' (x :: l) /\ StronglySorted (desc key le) l'.
Proof.
  intros Vx. induction l as [|y l IH]; intros Vl Sl.
  - exists [x]. simpl. repeat split; auto. constructor; constructor.
  - inversion Vl as [|? ? Vy Vl']; subst.
    inversion Sl as [|? ? Sl' Hy]; subst.
    simpl. destruct (lt_ok _ _ Vx Vy) as (c & Hc & Hfalse & Htrue).
    rewrite Hc. simpl. destruct c.
    + destruct (IH Vl' Sl') as (l'' & Hi & Hp & Hs). rewrite Hi. simpl.
      exists (y :: l''). split; [reflexivity|]. split.
      * apply perm_trans with (y :: x :: l); [apply perm_skip; exact Hp | apply perm_swap].
      * constructor; [exact Hs|].
        eapply Permutation_Forall; [apply Permutation_sym; exact Hp|].
        constructor; [apply Htrue; reflexivity | exact Hy].
    + exists (x :: y :: l). repeat split; auto.
      constructor; [exact Sl|].
      constructor; [apply Hfalse; reflexivity|].
      eapply Forall_impl; [|exact Hy].
      intros z Hz. unfold desc in *. eapply le_trans; [exact Hz|].
      apply Hfalse; reflexivity.
Qed.

Lemma sorted_desc_ok (l : list A) :
  Forall (fun y => V (key y)) l ->
  exists s, Heapq.sorted_desc key lt l = Ok s /\
            Permutation s l /\ StronglySorted (desc key le) s.
Proof.
  induction l as [|x l IH]; intros Vl.
  - exists []. repeat split; auto. constructor.
  - inversion Vl as [|? ? Vx Vl']; subst.
    destruct (IH Vl') as (s & Hs & Hp & Hsorted). simpl. rewrite Hs. simpl.
    destruct (insert_desc_ok x s Vx) as (s' & Hi & Hp' & Hs'); auto.
    { eapply Permutation_Forall; [apply Permutation_sym; exact Hp | exact Vl']. }
    exists s'. repeat split; auto.
    apply perm_trans with (x :: s); [exact Hp' | apply perm_skip; exact Hp].
Qed.

(** A prefix of a sorted list is sorted, and dominates what it leaves. *)
Lemma sorted_firstn (n : nat) (s : list A) :
  StronglySorted (desc key le) s ->
  StronglySorted (desc key le) (firstn n s) /\
  (forall a b, In a (firstn n s) -> In b (skipn n s) -> desc key le a b).
Proof.
  revert s. induction n as [|n IH]; intros s Hs.
  - simpl. split; [constructor | intros a b []].
  - destruct s as [|x s]; simpl.
    + split; [constructor | intros a b []].
    + inversion Hs as [|? ? Hs' Hx]; subst.
      destruct (IH s Hs') as [H1 H2]. split.
      * constructor; [exact H1|].
        rewrite Forall_forall in *. intros z Hz. apply Hx.
        rewrite <- (firstn_skipn n s), in_app_iff. left; exact Hz.
      * intros a b [<-|Ha] Hb.
        -- rewrite Forall_forall in Hx. apply Hx.
           rewrite <- (firstn_skipn n s), in_app_iff. right; exact Hb.
        -- apply H2; assumption.
Qed.

End SortFacts.

(* ================================================================== *)
(** ** Dictionaries and Portfolios *)

Section DictFacts.

Variable V : Type.

Lemma dict_set_fresh (k : string) (v : V) (d : dict V) :
  ~ In k (keys d) -> dict_set k v d = d ++ [(k, v)].
Proof.
  induction d as [|[k' v'] d IH]; simpl; intro H; [reflexivity|].
  destruct (String.eqb_spec k k') as [->|Hne]; [tauto|].
  rewrite IH; [reflexivity | tauto].
Qed.

Lemma dict_get_in (k : string) (v : V) (d : dict V) :
  NoDup (keys d) -> In (k, v) d -> dict_get k d = Some v.
Proof.
  induction d as [|[k' v'] d IH]; simpl; intros Hnd Hin; [contradiction|].
  inversion Hnd as [|? ? Hk Hnd']; subst.
  destruct Hin as [E|Hin].
  - inversion E; subst. rewrite String.eqb_refl. reflexivity.
  - destruct (String.eqb_spec k k') as [->|Hne]; [|auto].
    exfalso. apply Hk. unfold keys. change k' with (fst (k', v)).
    apply in_map. exact Hin.
Qed.

Lemma keys_dict_set (k : string) (v : V) (d : dict V) :
  forall k', In k' (keys (dict_set k v d)) <-> k' = k \/ In k' (keys d).
Proof.
  induction d as [|[k0 v0] d IH]; simpl; intro k'.
  - intuition.
  - destruct (String.eqb_spec k k0) as [->|Hne]; simpl.
    + intuition.
    + rewrite IH. intuition.
Qed.

Lemma dict_set_NoDup (k : string) (v : V) (d : dict V) :
  NoDup (keys d) -> NoDup (keys (dict_set k v d)).
Proof.
  induction d as [|[k0 v0] d IH]; simpl; intro Hnd.
  - constructor; [intros [] | constructor].
  - inversion Hnd as [|? ? Hk Hnd']; subst.
    destruct (String.eqb_spec k k0) as [->|Hne]; simpl.
    + constructor; assumption.
    + constructor; [|auto].
      intro Hin. apply keys_dict_set in Hin. destruct Hin as [->|Hin]; tauto.
Qed.

Lemma dict_set_Forall (Q : string * V -> Prop) (k : string) (v : V) (d : dict V) :
  Q (k, v) -> Forall Q d -> Forall Q (dict_set k v d).
Proof.
  intros Hq. induction d as [|[k0 v0] d IH]; simpl; intro Hd.
  - constructor; [exact Hq | constructor].
  - inversion Hd; subst.
    destruct (String.eqb k k0); constructor; auto.
Qed.

End DictFacts.

Section PortfolioFacts.

Context {Reference Sketch SketchClass SketchData : Type}.
Context {RO : ReferenceOps Reference}.
Context {SO : SketchOps Sketch SketchClass SketchData}.

Local Abbreviation pad := (SketchPad.t Reference Sketch).
Local Abbreviation portfolio := (Portfolio.t Reference Sketch).

Lemma add_sketchpad_wf (pf : portfolio) (sp : pad) :
  wf pf -> wf (Portfolio.add_sketchpad pf sp).
Proof.
  intros [Hnd Hid]. split; simpl.
  - apply dict_set_NoDup. exact Hnd.
  - apply dict_set_Forall; [reflexivity | exact Hid].
Qed.

Lemma init_wf (sps : list pad) : wf (Portfolio.init sps).
Proof.
  unfold Portfolio.init.
  assert (G : forall d : dict pad,
             wf {| Portfolio.sketchpads := d |} ->
             wf {| Portfolio.sketchpads :=
                     fold_left (fun d sp => dict_set (SketchPad.id sp) sp d) sps d |}).
  { induction sps as [|sp sps IH]; intros d Hd; simpl; [exact Hd|].
    apply IH. exact (add_sketchpad_wf {| Portfolio.sketchpads := d |} sp Hd). }
  apply G. split; simpl; constructor.
Qed.

Lemma wf_getitem (pf : portfolio) (sp : pad) :
  wf pf -> In sp (values (Portfolio.sketchpads pf)) ->
  dict_getitem (Portfolio.sketchpads pf) (SketchPad.id sp) = Ok sp.
Proof.
  intros [Hnd Hid] Hin. unfold values in Hin.
  apply in_map_iff in Hin. destruct Hin as ([k v] & <- & Hin). simpl.
  rewrite Forall_forall in Hid. pose proof (Hid _ Hin) as E. simpl in E. subst k.
  unfold dict_getitem. rewrite (dict_get_in _ _ _ _ Hnd Hin). reflexivity.
Qed.

(** Filing the pads of a well-formed dictionary that pass a test, one by
    one, files the filtered dictionary. *)
Lemma fold_add_filter (test : pad -> result bool) (keep : pad -> bool)
    (d acc : dict pad) :
  NoDup (keys (acc ++ d)) ->
  Forall (fun kv => fst kv = SketchPad.id (snd kv)) d ->
  (forall sp, In sp (values d) -> test sp = Ok (keep sp)) ->
  foldM (fun pf sketchpad =>
           b <- test sketchpad ;;
           if b then Ok (Portfolio.add_sketchpad pf sketchpad) else Ok pf)
        (values d) {| Portfolio.sketchpads := acc |}
  = Ok {| Portfolio.sketchpads := acc ++ filter (fun kv => keep (snd kv)) d |}.
Proof.
  revert acc. induction d as [|[k sp] d IH]; intros acc Hnd Hid Ht; simpl.
  - rewrite app_nil_r. reflexivity.
  - inversion Hid as [|? ? Hk Hid']; subst. simpl in Hk. subst k.
    rewrite (Ht sp) by (left; reflexivity). simpl.
    assert (Hnd' : NoDup (keys ((acc ++ [(SketchPad.id sp, sp)]) ++ d)))
      by (rewrite <- app_assoc; exact Hnd).
    destruct (keep sp) eqn:E.
    + assert (E2 : Portfolio.add_sketchpad {| Portfolio.sketchpads := acc |} sp
                   = {| Portfolio.sketchpads := acc ++ [(SketchPad.id sp, sp)] |}).
      { unfold Portfolio.add_sketchpad. simpl. rewrite dict_set_fresh; [reflexivity|].
        unfold keys in Hnd. rewrite map_app in Hnd. simpl in Hnd.
        apply NoDup_remove_2 in Hnd. intro Hin. apply Hnd.
        apply in_or_app. left. exact Hin. }
      rewrite E2. cbn [bind]. rewrite IH; auto.
      * rewrite <- app_assoc. reflexivity.
      * intros sp' Hin. apply Ht. right. exact Hin.
    + cbn [bind]. rewrite IH; auto.
      * unfold keys in *. rewrite map_app in *. simpl in Hnd.
        apply NoDup_remove_1 in Hnd. exact Hnd.
      * intros sp' Hin. apply Ht. right. exact Hin.
Qed.

Lemma heap_build (q : pad) (pads : list pad) (acc : list (score * string)) :
  (forall sp, In sp pads -> exists x, SketchPad.minhash_jaccard q sp = Ok (Some x)) ->
  Forall (fun e => fst e <> None) acc ->
  exists h,
    foldM (fun scores sp =>
             score <- SketchPad.minhash_jaccard q sp ;;
             Heapq.heappush entry_lt scores (score, SketchPad.id sp))
          pads acc = Ok h /\
    Permutation h (acc ++ map (entry_of q) pads).
Proof.
  revert acc. induction pads as [|sp pads IH]; intros acc Hs Hacc; simpl.
  - exists acc. rewrite app_nil_r. auto.
  - destruct (Hs sp (or_introl eq_refl)) as [x Hx]. rewrite Hx. simpl.
    destruct (heappush_perm _ entry_lt (fun e => fst e <> None) entry_lt_some
                acc (Some x, SketchPad.id sp)) as (h' & Hh & Hp); auto.
    { simpl. discriminate. }
    rewrite Hh. simpl.
    destruct (IH h') as (h & Hf & Hperm).
    + intros sp' Hin. apply Hs. right. exact Hin.
    + eapply Permutation_Forall; [apply Permutation_sym; exact Hp|].
      constructor; [simpl; discriminate | exact Hacc].
    + exists h. split; [exact Hf|].
      apply perm_trans with (h' ++ map (entry_of q) pads); [exact Hperm|].
      unfold entry_of at 2, jaccard_of. rewrite Hx.
      apply perm_trans with (((Some x, SketchPad.id sp) :: acc) ++ map (entry_of q) pads).
      * apply Permutation_app_tail. exact Hp.
      * simpl. apply Permutation_middle.
Qed.

Lemma resolve_pairs (pf : portfolio) (q : pad) (pads : list pad) :
  wf pf -> (forall sp, In sp pads -> In sp (values (Portfolio.sketchpads pf))) ->
  mapM (fun si => sp <- dict_getitem (Portfolio.sketchpads pf) (snd si) ;; Ok (fst si, sp))
       (map (entry_of q) pads)
  = Ok (map (pair_of q) pads).
Proof.
  intros Hwf. induction pads as [|sp pads IH]; intros Hin; simpl; [reflexivity|].
  rewrite (wf_getitem pf sp Hwf) by (apply Hin; left; reflexivity). simpl.
  rewrite IH by (intros sp' H; apply Hin; right; exact H). reflexivity.
Qed.

Lemma StronglySorted_map {X Y : Type} (f : X -> Y) (R : Y -> Y -> Prop) (l : list X) :
  StronglySorted R (map f l) <-> StronglySorted (fun a b => R (f a) (f b)) l.
Proof.
  induction l as [|x l IH]; simpl.
  - split; intros _; constructor.
  - split; intro H; inversion H as [|? ? Hs Hf]; subst; constructor;
      try (apply IH; exact Hs).
    + rewrite Forall_forall in *. intros y Hy. apply Hf. apply in_map. exact Hy.
    + rewrite Forall_forall in *. intros y Hy.
      apply in_map_iff in Hy. destruct Hy as (z & <- & Hz). apply Hf. exact Hz.
Qed.

End PortfolioFacts.

(** ** closest_overlap *)

Section ClosestOverlap.

Context {Reference Sketch SketchClass SketchData : Type}.
Context {RO : ReferenceOps Reference}.
Context {SO : SketchOps Sketch SketchClass SketchData}.

Local Abbreviation pad := (SketchPad.t Reference Sketch).
Local Abbreviation portfolio := (Portfolio.t Reference Sketch).

(** The full ranking behind [closest_overlap]: one list, independent of
    [n], of which every call returns a prefix. *)
Lemma closest_overlap_prefixes (self : portfolio) (q : pad) :
  wf self ->
  (forall sp, In sp (values (Portfolio.sketchpads self)) ->
     exists x, SketchPad.minhash_jaccard q sp = Ok (Some x) /\ num_val x <> None) ->
  exists ranking : list (score * pad),
    Permutation ranking (map (pair_of q) (values (Portfolio.sketchpads self))) /\
    StronglySorted by_score ranking /\
    (forall n, Portfolio.closest_overlap self q (Some n)
               = Ok (firstn (Z.to_nat n) ranking)) /\
    Portfolio.closest_overlap self q None = Ok (firstn 5 ranking).
Proof.
  intros Hwf Hs.
  set (pads := values (Portfolio.sketchpads self)) in *.
  destruct (heap_build q pads []) as (h & Hh & Hperm).
  { intros sp Hin. destruct (Hs sp Hin) as (x & Hx & _). exists x. exact Hx. }
  { constructor. }
  simpl in Hperm.
  assert (Hnum : Forall (fun e : score * string => is_number (fst e)) h).
  { eapply Permutation_Forall; [apply Permutation_sym; exact Hperm|].
    apply Forall_forall. intros e He. apply in_map_iff in He.
    destruct He as (sp & <- & Hin). destruct (Hs sp Hin) as (x & Hx & Hv).
    unfold entry_of, jaccard_of. rewrite Hx. exact Hv. }
  destruct (sorted_desc_ok _ _ fst score_lt is_number score_le
              score_lt_number score_le_trans h Hnum) as (s & Hsort & Hps & Hss).
  assert (Hps' : Permutation s (map (entry_of q) pads))
    by (eapply perm_trans; eauto).
  destruct (Permutation_map_inv _ _ Hps') as (pads' & Es & Hpp).
  assert (Hin' : forall sp, In sp pads' -> In sp pads).
  { intros sp Hin. eapply Permutation_in; [apply Permutation_sym; exact Hpp | exact Hin]. }
  assert (Hcall : forall n : Z,
            (scores <- Ok h ;;
             top_n <- Heapq.nlargest fst score_lt n scores ;;
             mapM (fun si => sp <- dict_getitem (Portfolio.sketchpads self) (snd si) ;;
                             Ok (fst si, sp)) top_n)
            = Ok (firstn (Z.to_nat n) (map (pair_of q) pads'))).
  { intro n. cbn [bind]. unfold Heapq.nlargest.
    destruct (Z.leb_spec n 0) as [Hle|Hgt].
    - cbn [bind mapM]. replace (Z.to_nat n) with 0%nat by lia. reflexivity.
    - rewrite Hsort. cbn [bind]. rewrite Es, !firstn_map.
      apply resolve_pairs; [exact Hwf|].
      intros sp Hin. apply Hin'.
      rewrite <- (firstn_skipn (Z.to_nat n) pads'). apply in_or_app. left. exact Hin. }
  exists (map (pair_of q) pads'). repeat split.
  - apply Permutation_sym, Permutation_map. exact Hpp.
  - apply StronglySorted_map. rewrite Es in Hss.
    apply (StronglySorted_map (entry_of q)) in Hss. exact Hss.
  - intro n. unfold Portfolio.closest_overlap. fold pads. rewrite Hh. apply Hcall.
  - unfold Portfolio.closest_overlap. fold pads. rewrite Hh. apply (Hcall 5%Z).
Qed.

(** X24: on a Portfolio all of whose SketchPads have a similarity score
    against the query, [closest_overlap] scores every SketchPad of the
    Portfolio and returns, for every [n], the first [n] pairs of one
    ranking of all (score, SketchPad) pairs by descending score: the result
    is sorted, it is the whole ranking cut after [n] (nothing it leaves out
    scores higher than anything it returns), the call without [n] cuts
    after 5, and the result for [n' <= n] is a prefix of the result for
    [n]. *)
Theorem closest_overlap_top_n (self : portfolio) (q : pad) :
  wf self ->
  (forall sp, In sp (values (Portfolio.sketchpads self)) ->
     exists x, SketchPad.minhash_jaccard q sp = Ok (Some x) /\ num_val x <> None) ->
  exists ranking : list (score * pad),
    Permutation ranking (map (pair_of q) (values (Portfolio.sketchpads self))) /\
    StronglySorted by_score ranking /\
    (forall n, exists top,
       Portfolio.closest_overlap self q (Some n) = Ok top /\
       top = firstn (Z.to_nat n) ranking /\
       StronglySorted by_score top /\
       List.length top = Nat.min (Z.to_nat n) (List.length (Portfolio.sketchpads self)) /\
       (forall a b, In a top -> In b (skipn (Z.to_nat n) ranking) -> by_score a b)) /\
    Portfolio.closest_overlap self q None = Portfolio.closest_overlap self q (Some 5%Z) /\
    (forall n' n top, (n' <= n)%Z ->
       Portfolio.closest_overlap self q (Some n) = Ok top ->
       Portfolio.closest_overlap self q (Some n') = Ok (firstn (Z.to_nat n') top)).
Proof.
  intros Hwf Hs.
  destruct (closest_overlap_prefixes self q Hwf Hs) as (ranking & Hp & Hsorted & Hn & Hd).
  exists ranking. split; [exact Hp|]. split; [exact Hsorted|]. split; [|split].
  - intro n. exists (firstn (Z.to_nat n) ranking).
    destruct (sorted_firstn _ _ fst score_le (Z.to_nat n) ranking Hsorted) as [H1 H2].
    repeat split; auto.
    rewrite length_firstn, (Permutation_length Hp), length_map.
    unfold values. rewrite length_map. reflexivity.
  - rewrite Hd, (Hn 5%Z). reflexivity.
  - intros n' n top Hle Htop. rewrite Hn in Htop. inversion Htop; subst.
    rewrite Hn, firstn_firstn. f_equal. f_equal. lia.
Qed.

End ClosestOverlap.

Example closest_overlap_demo :
  match Portfolio.closest_overlap demo_portfolio demo_query (Some 2%Z) with
  | Ok top => Ok (map (fun p => (fst p, SketchPad.id (snd p))) top)
  | Raise e => Raise e
  end = Ok [(Some (PyFloat 1), "p2"); (Some (PyFloat 0.5), "p1")].
Proof. vm_compute. reflexivity. Qed.

(** X24 at [demo_portfolio] and [demo_query]. *)
Lemma closest_overlap_top_n_witness :
  exists ranking : list (score * SketchPad.t Model.Reference Model.Sketch),
    Permutation ranking
      (map (pair_of demo_query) (values (Portfolio.sketchpads demo_portfolio))) /\
    StronglySorted by_score ranking /\
    (forall n, exists top,
       Portfolio.closest_overlap demo_portfolio demo_query (Some n) = Ok top /\
       top = firstn (Z.to_nat n) ranking /\
       StronglySorted by_score top /\
       List.length top
         = Nat.min (Z.to_nat n) (List.length (Portfolio.sketchpads demo_portfolio)) /\
       (forall a b, In a top -> In b (skipn (Z.to_nat n) ranking) -> by_score a b)) /\
    Portfolio.closest_overlap demo_portfolio demo_query None
      = Portfolio.closest_overlap demo_portfolio demo_query (Some 5%Z) /\
    (forall n' n top, (n' <= n)%Z ->
       Portfolio.closest_overlap demo_portfolio demo_query (Some n) = Ok top ->
       Portfolio.closest_overlap demo_portfolio demo_query (Some n')
         = Ok (firstn (Z.to_nat n') top)).
Proof.
  apply (closest_overlap_top_n demo_portfolio demo_query).
  - apply init_wf.
  - intros sp Hin. simpl in Hin.
    destruct Hin as [<-|[<-|[<-|[]]]]; eexists;
      (split; [vm_compute; reflexivity | vm_compute; discriminate]).
Defined.

(** ** get_approx_pk_sketchpads *)

Section ApproxPk.

Context {Reference Sketch SketchClass SketchData : Type}.
Context {RO : ReferenceOps Reference}.
Context {SO : SketchOps Sketch SketchClass SketchData}.

Local Abbreviation pad := (SketchPad.t Reference Sketch).
Local Abbreviation portfolio := (Portfolio.t Reference Sketch).

Lemma num_eq_not_gt (a b : pynum) : num_eq a b = true -> num_gt a b = false.
Proof.
  unfold num_eq, num_gt, num_lt.
  destruct (num_val a) as [x|], (num_val b) as [y|]; try discriminate.
  destruct x as [|p|], y as [|r|]; simpl; try discriminate; try reflexivity.
  intro H. apply Qeq_bool_iff in H.
  assert (E : (r ?= p)%Q = Eq) by (apply Qeq_alt; symmetry; exact H).
  rewrite E. reflexivity.
Qed.

(** C4, amended: on a Portfolio whose SketchPads all carry a distinct-count
    estimate [uq] and a row count [rows], [get_approx_pk_sketchpads]
    returns, in their order, exactly the SketchPads with
    [uq > 0.97 * rows], the product taken in binary64; the comparison is
    strict, so a SketchPad whose estimate equals the product is left
    out. *)
Theorem get_approx_pk_sketchpads_strict (self : portfolio) (keep : pad -> bool) :
  wf self ->
  (forall sp, In sp (values (Portfolio.sketchpads self)) ->
     exists uq rows bound,
       Portfolio.count_of (SketchPad.get_sketchdata_by_name sp "HyperLogLog") = Ok uq /\
       Portfolio.int_of (SketchPad.get_sketchdata_by_name sp "Rows") = Ok rows /\
       float_mul_int 0.97%float rows = Ok bound /\
       keep sp = num_gt uq (PyFloat bound)) ->
  Portfolio.get_approx_pk_sketchpads self
  = Ok {| Portfolio.sketchpads :=
            filter (fun kv => keep (snd kv)) (Portfolio.sketchpads self) |} /\
  (forall sp uq rows bound,
     In sp (values (Portfolio.sketchpads self)) ->
     Portfolio.count_of (SketchPad.get_sketchdata_by_name sp "HyperLogLog") = Ok uq ->
     Portfolio.int_of (SketchPad.get_sketchdata_by_name sp "Rows") = Ok rows ->
     float_mul_int 0.97%float rows = Ok bound ->
     num_eq uq (PyFloat bound) = true ->
     keep sp = false).
Proof.
  intros [Hnd Hid] H. split.
  - unfold Portfolio.get_approx_pk_sketchpads.
    apply (fold_add_filter Portfolio.is_approx_pk keep (Portfolio.sketchpads self) []).
    + exact Hnd.
    + exact Hid.
    + intros sp Hin. destruct (H sp Hin) as (uq & rows & bound & Hc & Hr & Hb & Hk).
      unfold Portfolio.is_approx_pk. rewrite Hc, Hr. cbn [bind]. rewrite Hb. cbn [bind].
      rewrite Hk. reflexivity.
  - intros sp uq rows bound Hin Hc Hr Hb He.
    destruct (H sp Hin) as (uq' & rows' & bound' & Hc' & Hr' & Hb' & Hk).
    rewrite Hc in Hc'. rewrite Hr in Hr'. inversion Hc'; inversion Hr'; subst.
    rewrite Hb in Hb'. inversion Hb'; subst.
    rewrite Hk. apply num_eq_not_gt. exact He.
Qed.

End ApproxPk.

(** C4 as stated fails: with the estimates 97 (an int) and 97.0 (a float)
    over 100 rows, exactly 97 percent, neither SketchPad is returned. *)
Lemma approx_pk_excludes_exactly_97_percent :
  let a := Model.pad "a" "c1" [Model.HyperLogLogSketch (PyInt 97); Model.RowsSketch 100] in
  let b := Model.pad "b" "c2" [Model.HyperLogLogSketch (PyFloat 97); Model.RowsSketch 100] in
  float_mul_int 0.97%float 100 = Ok 97%float /\
  Portfolio.get_approx_pk_sketchpads (Portfolio.init [a; b]) = Ok (Portfolio.init []).
Proof. split; vm_compute; reflexivity. Qed.

Example approx_pk_990_500_1000 :
  match Portfolio.get_approx_pk_sketchpads pk_portfolio with
  | Ok pf => Ok (keys (Portfolio.sketchpads pf))
  | Raise e => Raise e
  end = Ok ["k1"; "k3"].
Proof. vm_compute. reflexivity. Qed.

(** C4, amended, at [pk_portfolio]. *)
Lemma get_approx_pk_sketchpads_strict_witness :
  let keep := fun sp : SketchPad.t Model.Reference Model.Sketch =>
                negb (String.eqb (SketchPad.id sp) "k2") in
  Portfolio.get_approx_pk_sketchpads pk_portfolio
  = Ok {| Portfolio.sketchpads :=
            filter (fun kv => keep (snd kv)) (Portfolio.sketchpads pk_portfolio) |} /\
  (forall sp uq rows bound,
     In sp (values (Portfolio.sketchpads pk_portfolio)) ->
     Portfolio.count_of (SketchPad.get_sketchdata_by_name sp "HyperLogLog") = Ok uq ->
     Portfolio.int_of (SketchPad.get_sketchdata_by_name sp "Rows") = Ok rows ->
     float_mul_int 0.97%float rows = Ok bound ->
     num_eq uq (PyFloat bound) = true ->
     keep sp = false).
Proof.
  apply (get_approx_pk_sketchpads_strict pk_portfolio
           (fun sp => negb (String.eqb (SketchPad.id sp) "k2"))).
  - apply init_wf.
  - intros sp Hin. simpl in Hin.
    destruct Hin as [<-|[<-|[<-|[]]]];
      eexists; eexists; eexists;
      (split; [vm_compute; reflexivity|]);
      (split; [vm_compute; reflexivity|]);
      (split; [vm_compute; reflexivity|]);
      vm_compute; reflexivity.
Defined.

(** ** to_dict followed by from_dict *)

Section RoundTrip.

Context {Reference Sketch SketchClass SketchData : Type}.
Context {RO : ReferenceOps Reference}.
Context {SO : SketchOps Sketch SketchClass SketchData}.

Local Abbreviation pad := (SketchPad.t Reference Sketch).

Lemma mapM_from_dict_to_dict (sks : list Sketch) :
  Forall (fun s => sketch_from_dict (sketch_to_dict s) = Ok s) sks ->
  mapM sketch_from_dict (map sketch_to_dict sks) = Ok sks.
Proof.
  induction 1 as [|s sks Hs _ IH]; simpl; [reflexivity|].
  rewrite Hs. cbn [bind]. rewrite IH. reflexivity.
Qed.

(** What [from_series] leaves in the attributes [from_dict] reads back. *)
Lemma from_series_attributes (series : Series) (r : Reference) (w w' : World) (sp : pad) :
  SketchPad.from_series series r w = (Ok sp, w') ->
  SketchPad.version sp = "0.0.1" /\
  dict_get "id" (SketchPad.metadata sp) = Some (PStr (SketchPad.id sp)) /\
  SketchPad.reference sp = r.
Proof.
  unfold SketchPad.from_series, SketchPad.init, bindM, lift, ret, uuid4, utcnow_isoformat.
  simpl.
  destruct (mapM _ SketchPad.cls_sketches) as [sks|e]; [|discriminate].
  intro H. inversion H; subst. simpl. auto.
Qed.

Lemma from_dict_to_dict (sp : pad) (w : World) :
  SketchPad.version sp = "0.0.1" ->
  dict_get "id" (SketchPad.metadata sp) = Some (PStr (SketchPad.id sp)) ->
  reference_from_dict (reference_to_dict (SketchPad.reference sp))
    = Ok (SketchPad.reference sp) ->
  Forall (fun s => sketch_from_dict (sketch_to_dict s) = Ok s) (SketchPad.sketches sp) ->
  fst (SketchPad.from_dict (SketchClass := SketchClass) (SketchPad.to_dict sp) w) = Ok sp.
Proof.
  intros Hv Hid Hr Hs.
  unfold SketchPad.from_dict, SketchPad.from_dict_body, SketchPad.to_dict,
    SketchPad.init, SketchPad.cls_version, bindM, lift, ret, uuid4, utcnow_isoformat.
  simpl. rewrite Hv. simpl. rewrite Hr.
  unfold dict_getitem. rewrite Hid. simpl.
  rewrite (mapM_from_dict_to_dict _ Hs). simpl.
  destruct sp; simpl in *. subst. reflexivity.
Qed.

(** C3: a SketchPad that [from_series] built from a column, serialised by
    [to_dict] and read back by [from_dict], comes back with the same
    identifier, reference, context and sketches (and the same version and
    metadata), provided the reference and the sketches survive their own
    [to_dict]/[from_dict], which core.py delegates to references.py and
    sketches.py. *)
Theorem from_dict_to_dict_roundtrip (series : Series) (r : Reference)
    (w w' w2 : World) (sp : pad) :
  SketchPad.from_series series r w = (Ok sp, w') ->
  reference_from_dict (reference_to_dict r) = Ok r ->
  Forall (fun s => sketch_from_dict (sketch_to_dict s) = Ok s) (SketchPad.sketches sp) ->
  exists sp',
    fst (SketchPad.from_dict (SketchClass := SketchClass) (SketchPad.to_dict sp) w2) = Ok sp' /\
    SketchPad.id sp' = SketchPad.id sp /\
    SketchPad.reference sp' = SketchPad.reference sp /\
    SketchPad.context sp' = SketchPad.context sp /\
    SketchPad.sketches sp' = SketchPad.sketches sp /\
    sp' = sp.
Proof.
  intros Hf Hr Hs.
  destruct (from_series_attributes _ _ _ _ _ Hf) as (Hv & Hid & Href).
  exists sp. repeat split.
  apply from_dict_to_dict; auto. rewrite Href. exact Hr.
Qed.

End RoundTrip.

Example from_series_demo :
  fst (SketchPad.from_series demo_series (Model.PandasDataframeColumn "frame" "city")
         (Model.world 200))
  = Ok demo_pad.
Proof. vm_compute. reflexivity. Qed.

(** C3 at the SketchPad built from [demo_series]. *)
Lemma from_dict_to_dict_roundtrip_witness :
  exists sp',
    fst (SketchPad.from_dict (SketchClass := Model.SketchClass)
           (SketchPad.to_dict demo_pad) (Model.world 200)) = Ok sp' /\
    SketchPad.id sp' = SketchPad.id demo_pad /\
    SketchPad.reference sp' = SketchPad.reference demo_pad /\
    SketchPad.context sp' = SketchPad.context demo_pad /\
    SketchPad.sketches sp' = SketchPad.sketches demo_pad /\
    sp' = demo_pad.
Proof.
  apply (from_dict_to_dict_roundtrip demo_series
           (Model.PandasDataframeColumn "frame" "city")
           (Model.world 200)
           (snd (SketchPad.from_series demo_series
                   (Model.PandasDataframeColumn "frame" "city") (Model.world 200)))
           (Model.world 200) demo_pad).
  - vm_compute. reflexivity.
  - vm_compute. reflexivity.
  - repeat constructor.
Defined.

Lemma Model_reference_roundtrip (r : Model.Reference) :
  reference_from_dict (reference_to_dict r) = Ok r.
Proof. destruct r; reflexivity. Qed.

Lemma Model_strings_of_map (m : list string) : Model.strings_of (map PStr m) = Ok m.
Proof.
  induction m as [|s m IH]; simpl; [reflexivity|]. rewrite IH. reflexivity.
Qed.

Lemma Model_sketch_roundtrip (s : Model.Sketch) :
  sketch_from_dict (sketch_to_dict s) = Ok s.
Proof.
  destruct s as [n|e|m]; try reflexivity.
  simpl. unfold Model.from_dict. simpl. rewrite Model_strings_of_map. reflexivity.
Qed.

(** ** add_dataframe *)

Section AddDataframe.

Context {Reference Sketch SketchClass SketchData : Type}.
Context {RO : ReferenceOps Reference}.
Context {SO : SketchOps Sketch SketchClass SketchData}.

(** The call [SketchPad.from_series(df[col])] passes one argument where
    [from_series] requires two: on a frame with a column, [add_dataframe]
    raises at the first one and builds nothing. *)
Lemma add_dataframe_raises (self : Portfolio.t Reference Sketch) (df : DataFrame)
    (w : World) (col : pyval) (cols : list pyval) :
  df_columns df = col :: cols ->
  Portfolio.add_dataframe (SketchClass := SketchClass) self df w = (Raise TypeError, w).
Proof.
  intro H. unfold Portfolio.add_dataframe. rewrite H. reflexivity.
Qed.

Lemma add_dataframe_no_columns (self : Portfolio.t Reference Sketch) (df : DataFrame)
    (w : World) :
  df_columns df = [] ->
  Portfolio.add_dataframe (SketchClass := SketchClass) self df w = (Ok self, w).
Proof.
  intro H. unfold Portfolio.add_dataframe. rewrite H. reflexivity.
Qed.

End AddDataframe.

(** C1: on a frame with the single column "city", [add_dataframe] raises
    TypeError and the Portfolio gains no SketchPad, where the claim has it
    return the Portfolio with one new SketchPad. *)
Theorem add_dataframe_one_column_TypeError :
  let df := {| df_columns := [PStr "city"]; df_getitem := fun _ => demo_series |} in
  Portfolio.add_dataframe (SketchClass := Model.SketchClass)
    (Portfolio.init (Reference := Model.Reference) (Sketch := Model.Sketch) [])
    df (Model.world 200)
  = (Raise TypeError, Model.world 200).
Proof. reflexivity. Qed.

(** ** minhash_jaccard without a MinHash sketch *)

Section MissingMinHash.

Context {Reference Sketch SketchClass SketchData : Type}.
Context {RO : ReferenceOps Reference}.
Context {SO : SketchOps Sketch SketchClass SketchData}.

(** [minhash_jaccard] returns None, and does not raise, when either side
    has no MinHash data. *)
Lemma minhash_jaccard_none (self other : SketchPad.t Reference Sketch) :
  SketchPad.get_sketchdata_by_name self "MinHash" = None \/
  SketchPad.get_sketchdata_by_name other "MinHash" = None ->
  SketchPad.minhash_jaccard self other = Ok None.
Proof.
  unfold SketchPad.minhash_jaccard. intros [H|H]; rewrite H; [reflexivity|].
  destruct (SketchPad.get_sketchdata_by_name self "MinHash"); reflexivity.
Qed.

End MissingMinHash.

(** C5: [minhash_jaccard] answers None for a SketchPad without a MinHash
    sketch, but [closest_overlap] does not take that for a non-match: with
    a scored SketchPad beside it the None reaches the tuple comparison of
    [heappush], with another unscored SketchPad it reaches the key
    comparison of [nlargest]; both raise TypeError. *)
Theorem closest_overlap_missing_minhash_TypeError :
  let q := Model.pad "q" "key" [Model.MinHashSketch ["a"; "b"]] in
  let scored := Model.pad "p1" "c1" [Model.MinHashSketch ["a"]] in
  let unscored := Model.pad "p2" "c2" [Model.RowsSketch 3] in
  let unscored' := Model.pad "p3" "c3" [Model.RowsSketch 1] in
  SketchPad.minhash_jaccard q unscored = Ok None /\
  Portfolio.closest_overlap (Portfolio.init [scored; unscored]) q None = Raise TypeError /\
  Portfolio.closest_overlap (Portfolio.init [unscored; unscored']) q None = Raise TypeError.
Proof. repeat split; vm_compute; reflexivity. Qed.

(** C6: [closest_overlap] does not return the top [n] for every
    Portfolio.  One SketchPad without a MinHash sketch, filed after the
    three scored SketchPads of [demo_portfolio], makes the call raise
    TypeError for every [n], zero and the default included: its score is
    None and [heappush] compares it with a number while the heap is
    built, before [n] is looked at.  Without that SketchPad the same call
    returns the two best of the three. *)
Theorem closest_overlap_unscored_pad_TypeError :
  let unscored := Model.pad "p4" "c4" [Model.RowsSketch 3] in
  let pf := Portfolio.add_sketchpad demo_portfolio unscored in
  SketchPad.minhash_jaccard demo_query unscored = Ok None /\
  Portfolio.closest_overlap pf demo_query (Some 2%Z) = Raise TypeError /\
  Portfolio.closest_overlap pf demo_query (Some 0%Z) = Raise TypeError /\
  Portfolio.closest_overlap pf demo_query None = Raise TypeError /\
  Portfolio.closest_overlap demo_portfolio demo_query (Some 2%Z)
  = Ok [(Some (PyFloat 1), Model.pad "p2" "c2" [Model.MinHashSketch ["a"; "b"; "c"; "d"]]);
        (Some (PyFloat 0.5), Model.pad "p1" "c1" [Model.MinHashSketch ["a"; "b"]])].
Proof. repeat split; vm_compute; reflexivity. Qed.

(** ** upload *)

Section Upload.

Context {Reference Sketch SketchClass SketchData : Type}.
Context {RO : ReferenceOps Reference}.
Context {SO : SketchOps Sketch SketchClass SketchData}.

Local Abbreviation pad := (SketchPad.t Reference Sketch).
Local Abbreviation portfolio := (Portfolio.t Reference Sketch).

Lemma after_nil (w : World) : after w [] [] = w.
Proof. destruct w. unfold after. simpl. rewrite !app_nil_r. reflexivity. Qed.

Lemma after_after (w : World) (r1 r2 : list Request) (l1 l2 : list string) :
  after (after w r1 l1) r2 l2 = after w (r1 ++ r2) (l1 ++ l2).
Proof. unfold after. simpl. rewrite !app_assoc. reflexivity. Qed.

Lemma requests_post_after (w : World) (rq : Request) :
  requests_post rq w = (Ok (remote w (sent w) rq), after w [rq] []).
Proof. unfold requests_post, after. rewrite app_nil_r. reflexivity. Qed.

Lemma upload_each_stops (url auth : string) (pre : list pad) (sp : pad)
    (post : list pad) (w : World) :
  let req := Portfolio.upload_request url auth in
  (forall pre1 x pre2, pre = pre1 ++ x :: pre2 ->
     status_code (remote w (sent w ++ map req pre1) (req x)) = 200%Z) ->
  status_code (remote w (sent w ++ map req pre) (req sp)) <> 200%Z ->
  Portfolio.upload_each url auth (pre ++ sp :: post) w
  = (Ok (PBool false),
     after w (map req (pre ++ [sp]))
       [("Failed to upload sketchpad " ++ SketchPad.id sp)%string;
        text (remote w (sent w ++ map req pre) (req sp))]).
Proof.
  intro req. revert w. induction pre as [|a pre IH]; intros w Hok Hfail.
  - simpl in *. rewrite app_nil_r in *.
    unfold bindM. rewrite requests_post_after.
    fold req. simpl remote. simpl sent.
    destruct (Z.eqb_spec (status_code (remote w (sent w) (req sp))) 200) as [E|_];
      [contradiction|].
    simpl. unfold ret, after. simpl.
    rewrite !app_nil_r, <- app_assoc. reflexivity.
  - simpl. unfold bindM. rewrite requests_post_after. fold req.
    pose proof (Hok [] a pre eq_refl) as Ha. simpl in Ha. rewrite app_nil_r in Ha.
    rewrite Ha. simpl negb. cbv iota.
    rewrite IH.
    + rewrite after_after. simpl. rewrite <- app_assoc. reflexivity.
    + intros pre1 x pre2 E. simpl. rewrite <- app_assoc. simpl.
      apply (Hok (a :: pre1) x pre2). rewrite E. reflexivity.
    + simpl. rewrite <- app_assoc. simpl. exact Hfail.
Qed.

Lemma upload_each_all_ok (url auth : string) (pads : list pad) (w : World) :
  let req := Portfolio.upload_request url auth in
  (forall pre1 x pre2, pads = pre1 ++ x :: pre2 ->
     status_code (remote w (sent w ++ map req pre1) (req x)) = 200%Z) ->
  Portfolio.upload_each url auth pads w = (Ok PNone, after w (map req pads) []).
Proof.
  intro req. revert w. induction pads as [|a pads IH]; intros w Hok.
  - simpl. rewrite after_nil. reflexivity.
  - simpl. unfold bindM. rewrite requests_post_after. fold req.
    pose proof (Hok [] a pads eq_refl) as Ha. simpl in Ha. rewrite app_nil_r in Ha.
    rewrite Ha. simpl negb. cbv iota.
    rewrite IH.
    + rewrite after_after. reflexivity.
    + intros pre1 x pre2 E. simpl. rewrite <- app_assoc. simpl.
      apply (Hok (a :: pre1) x pre2). rewrite E. reflexivity.
Qed.

(** C9, amended: in the non-batch path, when the SketchPads before [sp]
    are answered 200 and [sp] is answered otherwise, [upload] does not
    raise: it logs two error records for [sp] and returns False at once.
    The requests sent are those of the SketchPads up to [sp], in order;
    none is sent for a SketchPad after it. *)
Theorem upload_stops_at_first_failure (self : portfolio) (url apiKey : option string)
    (pre : list pad) (sp : pad) (post : list pad) (w : World) :
  let url' := match url with None => "http://localhost:8000/api" | Some u => u end in
  let req := Portfolio.upload_request url' ("Bearer " ++ format_opt apiKey)%string in
  values (Portfolio.sketchpads self) = pre ++ sp :: post ->
  (forall pre1 x pre2, pre = pre1 ++ x :: pre2 ->
     status_code (remote w (sent w ++ map req pre1) (req x)) = 200%Z) ->
  status_code (remote w (sent w ++ map req pre) (req sp)) <> 200%Z ->
  Portfolio.upload self url apiKey false w
  = (Ok (PBool false),
     after w (map req (pre ++ [sp]))
       [("Failed to upload sketchpad " ++ SketchPad.id sp)%string;
        text (remote w (sent w ++ map req pre) (req sp))]).
Proof.
  intros url' req Hv Hok Hfail. unfold Portfolio.upload. rewrite Hv.
  apply upload_each_stops; assumption.
Qed.

End Upload.

(** C9 as stated fails: against a server that answers 500, the upload of
    the first of three SketchPads is the only one attempted. *)
Lemma upload_failure_skips_remaining :
  let out := Portfolio.upload upload_portfolio None None false (Model.world 500) in
  values (Portfolio.sketchpads upload_portfolio) = [upload_a; upload_b; upload_c] /\
  fst out = Ok (PBool false) /\
  map req_json (sent (snd out)) = [SketchPad.to_dict upload_a] /\
  logged (snd out) = ["Failed to upload sketchpad a"; "answer"].
Proof. repeat split. Qed.

(** C9, amended, at [upload_portfolio] and a server that accepts one
    request. *)
Lemma upload_stops_at_first_failure_witness :
  let req := Portfolio.upload_request "http://localhost:8000/api" "Bearer None" in
  Portfolio.upload upload_portfolio None None false accepts_one
  = (Ok (PBool false),
     after accepts_one (map req [upload_a; upload_b])
       ["Failed to upload sketchpad b"; "refused"]).
Proof.
  apply (upload_stops_at_first_failure upload_portfolio None None
           [upload_a] upload_b [upload_c] accepts_one).
  - reflexivity.
  - intros pre1 x pre2 E. destruct pre1 as [|y [|z pre1]]; try discriminate.
    reflexivity.
  - simpl. discriminate.
Defined.

(** ** The upper bin bound of cardhisto *)

Section Cardhisto.

Local Open Scope R_scope.

Lemma np_ceil_bounds (x : R) : IZR (Api.np_ceil x) - 1 < x <= IZR (Api.np_ceil x).
Proof.
  unfold Api.np_ceil. rewrite minus_IZR.
  destruct (archimed (- x)) as [H1 H2]. lra.
Qed.

Lemma np_ceil_unique (x : R) (z : Z) : IZR z - 1 < x <= IZR z -> Api.np_ceil x = z.
Proof.
  intros [H1 H2]. destruct (np_ceil_bounds x) as [H3 H4].
  assert (Hlo : (z - 1 < Api.np_ceil x)%Z).
  { apply lt_IZR. rewrite minus_IZR. lra. }
  assert (Hhi : (Api.np_ceil x - 1 < z)%Z).
  { apply lt_IZR. rewrite minus_IZR. lra. }
  lia.
Qed.





End Cardhisto.

(** ** The upper bin bound of cardhisto in binary64 *)

Section Binary64Order.

Lemma SFcompare_refl (f : spec_float) : f <> S754_nan -> SFcompare f f = Some Eq.
Proof.
  destruct f as [s|s| |s m e]; simpl; try congruence; intros _;
    rewrite ?Z.compare_refl, ?Pos.compare_cont_refl; destruct s; reflexivity.
Qed.

Ltac sf_cmp :=
  repeat match goal with
  | |- context [Z.compare ?a ?b] => destruct (Z.compare_spec a b); subst
  | H : context [Z.compare ?a ?b] |- _ => destruct (Z.compare_spec a b); subst
  | |- context [Pos.compare_cont Eq ?a ?b] =>
      change (Pos.compare_cont Eq a b) with (Pos.compare a b);
      destruct (Pos.compare_spec a b); subst
  | H : context [Pos.compare_cont Eq ?a ?b] |- _ =>
      change (Pos.compare_cont Eq a b) with (Pos.compare a b) in H;
      destruct (Pos.compare_spec a b); subst
  end; simpl in *; try congruence; try lia.

Lemma SFleb_total (f1 f2 : spec_float) :
  f1 <> S754_nan -> f2 <> S754_nan -> SFleb f1 f2 = false -> SFleb f2 f1 = true.
Proof.
  unfold SFleb, SFcompare.
  destruct f1 as [s1|s1| |s1 m1 e1], f2 as [s2|s2| |s2 m2 e2];
    try congruence; intros _ _;
    repeat match goal with s : bool |- _ => destruct s end;
    simpl; try congruence; sf_cmp.
Qed.

Lemma SFleb_trans (f1 f2 f3 : spec_float) :
  SFleb f1 f2 = true -> SFleb f2 f3 = true -> SFleb f1 f3 = true.
Proof.
  unfold SFleb, SFcompare.
  destruct f1 as [s1|s1| |s1 m1 e1], f2 as [s2|s2| |s2 m2 e2], f3 as [s3|s3| |s3 m3 e3];
    repeat match goal with s : bool |- _ => destruct s end;
    simpl; try congruence; sf_cmp.
Qed.

Lemma is_nan_false (x : float) : is_nan x = false <-> Prim2SF x <> S754_nan.
Proof.
  unfold is_nan. rewrite eqb_spec. unfold SFeqb. split.
  - intros H E. rewrite E in H. simpl in H. discriminate.
  - intro H. rewrite SFcompare_refl by exact H. reflexivity.
Qed.

Lemma leb_refl (x : float) : is_nan x = false -> (x <=? x)%float = true.
Proof.
  intro H. apply is_nan_false in H. rewrite leb_spec. unfold SFleb.
  rewrite SFcompare_refl by exact H. reflexivity.
Qed.

Lemma leb_total (x y : float) :
  is_nan x = false -> is_nan y = false ->
  (x <=? y)%float = false -> (y <=? x)%float = true.
Proof. rewrite !is_nan_false, !leb_spec. apply SFleb_total. Qed.

Lemma leb_trans (x y z : float) :
  (x <=? y)%float = true -> (y <=? z)%float = true -> (x <=? z)%float = true.
Proof. rewrite !leb_spec. apply SFleb_trans. Qed.

Lemma leb_nan_l (x y : float) : is_nan x = true -> (x <=? y)%float = false.
Proof.
  intro H. rewrite leb_spec.
  destruct (Prim2SF x) eqn:E; try reflexivity;
    assert (Hn : is_nan x = false) by (apply is_nan_false; rewrite E; discriminate);
    congruence.
Qed.

Lemma np_maximum_choice (a b : float) :
  Float64.np_maximum a b = a \/ Float64.np_maximum a b = b.
Proof. unfold Float64.np_maximum. destruct ((b <=? a)%float || is_nan a); auto. Qed.

Lemma np_maximum_nan (a b : float) :
  is_nan a = true \/ is_nan b = true -> is_nan (Float64.np_maximum a b) = true.
Proof.
  unfold Float64.np_maximum. intros [H|H].
  - rewrite H, orb_true_r. exact H.
  - rewrite (leb_nan_l b a H). simpl. destruct (is_nan a) eqn:E; assumption.
Qed.

Lemma np_maximum_ge (a b : float) :
  is_nan a = false -> is_nan b = false ->
  (a <=? Float64.np_maximum a b)%float = true /\
  (b <=? Float64.np_maximum a b)%float = true.
Proof.
  intros Ha Hb. unfold Float64.np_maximum. rewrite Ha, orb_false_r.
  destruct (b <=? a)%float eqn:E.
  - split; [apply leb_refl; exact Ha | exact E].
  - split; [apply leb_total; assumption | apply leb_refl; exact Hb].
Qed.

Lemma fold_np_maximum_in (cs : list float) (c : float) :
  In (fold_left Float64.np_maximum cs c) (c :: cs).
Proof.
  revert c. induction cs as [|d cs IH]; intro c; simpl; [auto|].
  destruct (IH (Float64.np_maximum c d)) as [E|Hin]; [|auto].
  rewrite <- E. destruct (np_maximum_choice c d) as [->| ->]; auto.
Qed.

Lemma fold_np_maximum_nan (cs : list float) (c : float) :
  (exists x, In x (c :: cs) /\ is_nan x = true) ->
  is_nan (fold_left Float64.np_maximum cs c) = true.
Proof.
  revert c. induction cs as [|d cs IH]; intros c (x & Hin & Hx); simpl.
  - destruct Hin as [<-|[]]. exact Hx.
  - apply IH. destruct Hin as [E|[E|Hin]].
    + exists (Float64.np_maximum c d). split; [left; reflexivity|].
      apply np_maximum_nan. left. rewrite E. exact Hx.
    + exists (Float64.np_maximum c d). split; [left; reflexivity|].
      apply np_maximum_nan. right. rewrite E. exact Hx.
    + exists x. split; [right; exact Hin | exact Hx].
Qed.

Lemma fold_np_maximum_ge (cs : list float) (c : float) :
  (forall x, In x (c :: cs) -> is_nan x = false) ->
  forall x, In x (c :: cs) -> (x <=? fold_left Float64.np_maximum cs c)%float = true.
Proof.
  revert c. induction cs as [|d cs IH]; intros c Hn x Hin; simpl.
  - destruct Hin as [<-|[]]. apply leb_refl, Hn. left. reflexivity.
  - destruct (np_maximum_ge c d) as [Hc Hd];
      [apply Hn; simpl; auto | apply Hn; simpl; auto |].
    assert (Hn' : forall y, In y (Float64.np_maximum c d :: cs) -> is_nan y = false).
    { intros y [<-|Hy]; [|apply Hn; simpl; auto].
      destruct (np_maximum_choice c d) as [->| ->]; apply Hn; simpl; auto. }
    assert (Hm := IH (Float64.np_maximum c d) Hn' (Float64.np_maximum c d)
                    (or_introl eq_refl)).
    destruct Hin as [E|[E|Hin]].
    + rewrite <- E. eapply leb_trans; [exact Hc | exact Hm].
    + rewrite <- E. eapply leb_trans; [exact Hd | exact Hm].
    + apply IH; [exact Hn' | right; exact Hin].
Qed.

End Binary64Order.

(** C7, amended: for every non-empty vector [cards] the bound the code
    computes is [pow(2, ceil(log(m / log(2))))], where [m] is [np.max] of
    the vector: one of the estimates, not below any of them when none is
    a NaN, and a NaN as soon as one of them is.  The division by log(2)
    is applied to [m] directly and the logarithm is taken of the
    quotient; this holds whatever the C library's [log] and [pow]
    compute.  On the empty vector [np.max] raises ValueError. *)
Theorem cardhisto_upper_formula (L : Float64.Libm) (c : float) (cs : list float) :
  Float64.cardhisto_upper [] = Raise ValueError /\
  exists m,
    Float64.np_max (c :: cs) = Ok m /\
    In m (c :: cs) /\
    ((forall x, In x (c :: cs) -> is_nan x = false) ->
       forall x, In x (c :: cs) -> (x <=? m)%float = true) /\
    ((exists x, In x (c :: cs) /\ is_nan x = true) -> is_nan m = true) /\
    Float64.cardhisto_upper (c :: cs)
    = Ok (Float64.np_pow 2
            (Float64.np_ceil (Float64.np_log (m / Float64.np_log 2)%float))).
Proof.
  split; [reflexivity|].
  exists (fold_left Float64.np_maximum cs c).
  split; [reflexivity|]. split; [apply fold_np_maximum_in|].
  split; [apply fold_np_maximum_ge|]. split; [apply fold_np_maximum_nan|].
  reflexivity.
Qed.

(** C7 as stated fails: for the single estimate 1 the code's bound is 2,
    the specification's formula gives 4.  The code takes the logarithm of
    1 / log(2) = 1.4426950408889634, which is 0.3665129205816643 and is
    rounded up to 1; the specification's formula rounds the quotient
    itself up to 2. *)
Lemma cardhisto_upper_not_spec_upper :
  Float64.cardhisto_upper (L := libm_consulted) [1%float] = Ok 2%float /\
  Float64.spec_upper (L := libm_consulted) [1%float] = Ok 4%float /\
  (2 =? 4)%float = false.
Proof. repeat split; vm_compute; reflexivity. Qed.

(** Two more evaluations: the estimate 0x1.47c9fd10d250ep+2 (about
    5.1217), whose quotient by log(2) has the binary64 logarithm 2
    exactly, gives the bound 4; the estimate 0 gives the bound 0, through
    log(0) = -inf. *)
Example cardhisto_upper_binary64 :
  Float64.cardhisto_upper (L := libm_consulted) [0x1.47c9fd10d250ep+2%float] = Ok 4%float /\
  Float64.cardhisto_upper (L := libm_consulted) [0%float] = Ok 0%float.
Proof. split; vm_compute; reflexivity. Qed.

(** ** get_approx_best_joins *)

Section BestJoins.

Context {Database Reference Sketch SketchClass SketchData : Type}.
Context {RO : ReferenceOps Reference}.
Context {SO : SketchOps Sketch SketchClass SketchData}.
Context {DO : DataOps Database Reference Sketch}.

Local Abbreviation pad := (SketchPad.t Reference Sketch).
Local Abbreviation portfolio := (Portfolio.t Reference Sketch).

Lemma filter_wf (d : dict pad) (keep : pad -> bool) :
  wf {| Portfolio.sketchpads := d |} ->
  wf {| Portfolio.sketchpads := filter (fun kv => keep (snd kv)) d |}.
Proof.
  intros [Hnd Hid]. simpl in *. split; simpl.
  - clear Hid. induction d as [|[k v] d IH]; simpl; [constructor|].
    inversion Hnd as [|? ? Hk Hnd']; subst.
    destruct (keep v); simpl; [|auto].
    constructor; [|auto].
    intro Hin. apply Hk. unfold keys in *. apply in_map_iff in Hin.
    destruct Hin as (kv & E & Hin). apply filter_In in Hin.
    apply in_map_iff. exists kv. tauto.
  - apply Forall_forall. intros kv Hin. apply filter_In in Hin.
    rewrite Forall_forall in Hid. apply Hid. tauto.
Qed.

Lemma values_filter (d : dict pad) (keep : pad -> bool) (sp : pad) :
  In sp (values (filter (fun kv => keep (snd kv)) d)) <->
  In sp (values d) /\ keep sp = true.
Proof.
  unfold values. rewrite !in_map_iff. split.
  - intros (kv & <- & Hin). apply filter_In in Hin. split; [|tauto].
    exists kv. tauto.
  - intros [(kv & <- & Hin) Hk]. exists kv. split; [reflexivity|].
    apply filter_In. tauto.
Qed.




End BestJoins.

Example get_approx_best_joins_demo :
  match Api.get_approx_best_joins join_store ["f1"; "k3"] {| username := "ann" |} with
  | Ok joins => Ok (map (fun c => (Api.score c, Api.right_sketchpad c)) joins)
  | Raise e => Raise e
  end
  = Ok [(Some (PyFloat 0x1.5555555555555p-1), SketchPad.to_dict join_key)].
Proof. vm_compute. reflexivity. Qed.


(** C8: the endpoint does not return the best joins for every request.
    With one SketchPad without a HyperLogLog sketch in the caller's
    Portfolio, the primary-key filter raises AttributeError before any
    candidate is computed, whatever SketchPads are asked about, none
    included; with a primary-key SketchPad without a MinHash sketch beside
    a scored one, [closest_overlap] raises TypeError.  On [join_store]
    itself the same requests are answered. *)
Theorem get_approx_best_joins_missing_sketch_raises :
  let ann := {| username := "ann" |} in
  let no_hll := Model.pad "k9" "notes" [Model.MinHashSketch ["a"]] in
  let no_minhash :=
    Model.pad "k8" "order_no" [Model.HyperLogLogSketch (PyFloat 10); Model.RowsSketch 10] in
  Api.get_approx_best_joins (join_store ++ [("ann", no_hll)]) [] ann
    = Raise AttributeError /\
  Api.get_approx_best_joins (join_store ++ [("ann", no_hll)]) ["f1"] ann
    = Raise AttributeError /\
  Api.get_approx_best_joins (join_store ++ [("ann", no_minhash)]) ["f1"] ann
    = Raise TypeError /\
  Api.get_approx_best_joins join_store [] ann = Ok [] /\
  Api.get_approx_best_joins join_store ["f1"] ann
    = Ok [{| Api.score := Some (PyFloat 0x1.5555555555555p-1);
             Api.left_sketchpad := SketchPad.to_dict join_asked;
             Api.right_sketchpad := SketchPad.to_dict join_key |}].
Proof. repeat split; vm_compute; reflexivity. Qed.

(* ================================================================== *)
(** * Further properties of the code *)

(** ** SketchPad: construction and reconstruction *)

Section Construction.

Context {Reference Sketch SketchClass SketchData : Type}.
Context {RO : ReferenceOps Reference}.
Context {SO : SketchOps Sketch SketchClass SketchData}.

Local Abbreviation pad := (SketchPad.t Reference Sketch).

Lemma mapM_Forall2 {A B : Type} (f : A -> result B) (l : list A) (ys : list B) :
  mapM f l = Ok ys <-> Forall2 (fun x y => f x = Ok y) l ys.
Proof.
  revert ys. induction l as [|x l IH]; intros ys; simpl.
  - split; intro H; [inversion H; constructor | inversion H; reflexivity].
  - destruct (f x) as [y|e] eqn:E; simpl.
    + destruct (mapM f l) as [ys'|e'] eqn:E'; simpl.
      * split; intro H.
        -- inversion H; subst. constructor; [exact E | apply IH; reflexivity].
        -- inversion H as [|? y0 ? ys0 Hy Hl]; subst.
           rewrite E in Hy. inversion Hy; subst.
           apply IH in Hl. inversion Hl; subst. reflexivity.
      * split; intro H; [discriminate|].
        inversion H as [|? y0 ? ys0 Hy Hl]; subst.
        apply IH in Hl. discriminate.
    + split; intro H; [discriminate|].
      inversion H as [|? y0 ? ys0 Hy Hl]; subst. rewrite E in Hy. discriminate.
Qed.

(** X1: [from_series] succeeds exactly when every sketch type of the
    registry builds on the column, and then the SketchPad holds one sketch
    per registered type, in the registry's order, a fresh identifier that
    is also filed in its metadata, the two timestamps, the given reference
    and the column's name as its only context; one identifier is drawn,
    the clock is read twice, and nothing is sent or logged. *)
Theorem from_series_registry (series : Series) (r : Reference) (w w' : World) (sp : pad) :
  SketchPad.from_series series r w = (Ok sp, w') <->
  exists sks,
    Forall2 (fun c s => sketch_from_series c series = Ok s) all_sketches sks /\
    sp = {| SketchPad.version := "0.0.1";
            SketchPad.id := uuid_source w (uuid_drawn w);
            SketchPad.metadata :=
              [("id", PStr (uuid_source w (uuid_drawn w)));
               ("creation_start", PStr (clock_source w (clock_read w)));
               ("creation_end", PStr (clock_source w (S (clock_read w))))];
            SketchPad.reference := r;
            SketchPad.context := PDict [("column_name", series_name series)];
            SketchPad.sketches := sks |} /\
    w' = advanced w 1 2.
Proof.
  unfold SketchPad.from_series, SketchPad.init, SketchPad.cls_sketches,
    bindM, lift, ret, uuid4, utcnow_isoformat, advanced. simpl.
  destruct (mapM (fun skcls => sketch_from_series skcls series) all_sketches)
    as [sks|e] eqn:E.
  - split.
    + intro H. inversion H; subst. exists sks.
      split; [apply mapM_Forall2; exact E|]. split; reflexivity.
    + intros (sks' & HF & -> & ->). apply mapM_Forall2 in HF.
      rewrite E in HF. inversion HF; subst. reflexivity.
  - split; [discriminate|].
    intros (sks' & HF & _). apply mapM_Forall2 in HF. rewrite E in HF. discriminate.
Qed.


Lemma from_dict_intro (data : pyval) (w w' : World) (sp : pad) :
  (exists d rd r md i ctx sd l sks,
    data = PDict d /\
    dict_get "version" d = Some (PStr "0.0.1") /\
    dict_get "reference" d = Some rd /\ reference_from_dict rd = Ok r /\
    dict_get "metadata" d = Some (PDict md) /\ dict_get "id" md = Some (PStr i) /\
    dict_get "context" d = Some ctx /\
    dict_get "sketches" d = Some sd /\ iter sd = Ok l /\
    mapM sketch_from_dict l = Ok sks /\
    sp = {| SketchPad.version := "0.0.1"; SketchPad.id := i;
            SketchPad.metadata := md; SketchPad.reference := r;
            SketchPad.context := ctx; SketchPad.sketches := sks |} /\
    w' = advanced w 1 1) ->
  SketchPad.from_dict (SketchClass := SketchClass) data w = (Ok sp, w').
Proof.
  unfold SketchPad.from_dict, SketchPad.from_dict_body, SketchPad.init,
    SketchPad.cls_version, SketchPad.py_assert, SketchPad.as_dict, SketchPad.as_str,
    bindM, lift, ret, uuid4, utcnow_isoformat, advanced, getitem, dict_getitem.
  intros (d & rd & r & md & i & ctx & sd & l & sks &
          -> & Ev & Er & Err & Em & Ei & Ec & Es & El & Ek & -> & ->).
  rewrite Ev. simpl. rewrite Er, Err. simpl. rewrite Em. cbn [bind].
  rewrite Ei. cbn [bind]. rewrite Ec, Es. cbn [bind]. rewrite El. cbn [bind].
  rewrite Ek. reflexivity.
Qed.


Lemma from_dict_result (data : pyval) (w w' : World) (sp : pad) :
  SketchPad.from_dict (SketchClass := SketchClass) data w = (Ok sp, w') ->
  SketchPad.version sp = "0.0.1" /\
  dict_get "id" (SketchPad.metadata sp) = Some (PStr (SketchPad.id sp)).
Proof.
  unfold SketchPad.from_dict, SketchPad.from_dict_body, SketchPad.init,
    SketchPad.cls_version, SketchPad.py_assert, SketchPad.as_dict, SketchPad.as_str,
    bindM, lift, ret, uuid4, utcnow_isoformat, getitem, dict_getitem.
  destruct data as [| | | |?|d]; try discriminate.
  destruct (dict_get "version" d) as [v|]; [|discriminate].
  destruct (eq_str v "0.0.1"); [|discriminate].
  destruct (dict_get "reference" d) as [rd|]; [|discriminate].
  destruct (reference_from_dict rd) as [r|]; [|discriminate].
  simpl.
  destruct (dict_get "metadata" d) as [mdv|]; [|discriminate].
  destruct mdv as [| | | |?|md]; try discriminate.
  cbn [bind].
  destruct (dict_get "id" md) as [idv|] eqn:Ei; [|discriminate].
  destruct idv as [| | |i|?|?]; try discriminate.
  cbn [bind].
  destruct (dict_get "context" d) as [ctx|]; [|discriminate].
  destruct (dict_get "sketches" d) as [sd|]; [|discriminate].
  cbn [bind].
  destruct (iter sd) as [l|]; [|discriminate].
  cbn [bind].
  destruct (mapM sketch_from_dict l) as [sks|]; [|discriminate].
  intro H. inversion H; subst. simpl. auto.
Qed.

(** X4: a SketchPad that [from_dict] rebuilt from any document goes
    through [to_dict] and [from_dict] unchanged, in any world, provided
    its reference and sketches survive their own serialisation. *)
Theorem from_dict_reserialises (data : pyval) (w w' w2 : World) (sp : pad) :
  SketchPad.from_dict (SketchClass := SketchClass) data w = (Ok sp, w') ->
  reference_from_dict (reference_to_dict (SketchPad.reference sp))
    = Ok (SketchPad.reference sp) ->
  Forall (fun s => sketch_from_dict (sketch_to_dict s) = Ok s) (SketchPad.sketches sp) ->
  SketchPad.from_dict (SketchClass := SketchClass) (SketchPad.to_dict sp) w2
  = (Ok sp, advanced w2 1 1).
Proof.
  intros H Hr Hs. destruct (from_dict_result _ _ _ _ H) as [Hv Hid].
  apply from_dict_intro.
  exists [("version", PStr (SketchPad.version sp));
          ("metadata", PDict (SketchPad.metadata sp));
          ("reference", reference_to_dict (SketchPad.reference sp));
          ("sketches", PList (map sketch_to_dict (SketchPad.sketches sp)));
          ("context", SketchPad.context sp)],
    (reference_to_dict (SketchPad.reference sp)), (SketchPad.reference sp),
    (SketchPad.metadata sp), (SketchPad.id sp), (SketchPad.context sp),
    (PList (map sketch_to_dict (SketchPad.sketches sp))),
    (map sketch_to_dict (SketchPad.sketches sp)), (SketchPad.sketches sp).
  repeat split; auto.
  - simpl. rewrite Hv. reflexivity.
  - apply mapM_from_dict_to_dict. exact Hs.
  - destruct sp; simpl in *; subst; reflexivity.
Qed.

(** X5: [minhash_jaccard] returns None exactly when one of the two
    SketchPads has no MinHash data (no sketch of that name, or more than
    one); when both have, its outcome is that of [jaccard] on the two,
    an exception included. *)
Theorem minhash_jaccard_none_iff (self other : pad) :
  (SketchPad.minhash_jaccard self other = Ok None <->
   SketchPad.get_sketchdata_by_name self "MinHash" = None \/
   SketchPad.get_sketchdata_by_name other "MinHash" = None) /\
  (forall a b,
     SketchPad.get_sketchdata_by_name self "MinHash" = Some a ->
     SketchPad.get_sketchdata_by_name other "MinHash" = Some b ->
     SketchPad.minhash_jaccard self other = (s <- data_jaccard a b ;; Ok (Some s))).
Proof.
  split.
  - split; [|apply minhash_jaccard_none].
    unfold SketchPad.minhash_jaccard.
    destruct (SketchPad.get_sketchdata_by_name self "MinHash") as [a|]; [|auto].
    destruct (SketchPad.get_sketchdata_by_name other "MinHash") as [b|]; [|auto].
    destruct (data_jaccard a b); simpl; discriminate.
  - intros a b Ha Hb. unfold SketchPad.minhash_jaccard. rewrite Ha, Hb. reflexivity.
Qed.

(** X23: what [from_dict] does to the world.  When [data["version"]],
    the assertion on it, [data["reference"]] or [Reference.from_dict]
    raises, [from_dict] raises that exception and the world is as it was:
    the constructor has not run.  In every other case, a later exception
    included, the constructor has run: exactly one identifier has been
    drawn and the clock read once, and nothing else has changed (nothing
    is sent or logged). *)
Theorem from_dict_effects (data : pyval) (w : World) :
  match (v <- getitem data "version" ;;
         _ <- SketchPad.py_assert (eq_str v "0.0.1") ;;
         rd <- getitem data "reference" ;;
         reference_from_dict rd) with
  | Raise e =>
      SketchPad.from_dict (Sketch := Sketch) (SketchClass := SketchClass) data w
      = (Raise e, w)
  | Ok _ =>
      snd (SketchPad.from_dict (Sketch := Sketch) (SketchClass := SketchClass) data w)
      = advanced w 1 1
  end.
Proof.
  unfold SketchPad.from_dict, SketchPad.from_dict_body, SketchPad.init,
    SketchPad.cls_version, bindM, lift, ret, uuid4, utcnow_isoformat, advanced.
  destruct (getitem data "version") as [v|]; simpl; [|reflexivity].
  destruct (eq_str v "0.0.1"); simpl; [|reflexivity].
  destruct (getitem data "reference") as [rd|]; simpl; [|reflexivity].
  destruct (reference_from_dict rd) as [r|]; simpl; [|reflexivity].
  destruct (getitem data "metadata") as [md|]; simpl; [|reflexivity].
  destruct (SketchPad.as_dict md) as [mdd|]; simpl; [|reflexivity].
  destruct (bind (dict_getitem mdd "id") _) as [i|]; simpl; [|reflexivity].
  destruct (getitem data "context") as [ctx|]; simpl; [|reflexivity].
  destruct (bind (getitem data "sketches") _) as [sks|]; reflexivity.
Qed.

End Construction.


(** X4 at the serialised [demo_pad]. *)
Lemma from_dict_reserialises_witness :
  SketchPad.from_dict (SketchClass := Model.SketchClass)
    (SketchPad.to_dict demo_pad) (Model.world 500)
  = (Ok demo_pad, advanced (Model.world 500) 1 1).
Proof.
  apply (from_dict_reserialises (SketchPad.to_dict demo_pad)
           (Model.world 200) (advanced (Model.world 200) 1 1) (Model.world 500) demo_pad).
  - reflexivity.
  - reflexivity.
  - repeat constructor.
Defined.

(** ** Portfolio: filing and finding SketchPads *)

Section Filing.

Context {Reference Sketch SketchClass SketchData : Type}.
Context {RO : ReferenceOps Reference}.
Context {SO : SketchOps Sketch SketchClass SketchData}.

Local Abbreviation pad := (SketchPad.t Reference Sketch).
Local Abbreviation portfolio := (Portfolio.t Reference Sketch).

Lemma dict_get_set {V : Type} (k k' : string) (v : V) (d : dict V) :
  dict_get k' (dict_set k v d) = if String.eqb k' k then Some v else dict_get k' d.
Proof.
  induction d as [|[k0 v0] d IH]; simpl.
  - destruct (String.eqb k' k); reflexivity.
  - destruct (String.eqb_spec k k0) as [->|Hne]; simpl.
    + destruct (String.eqb k' k0); reflexivity.
    + rewrite IH. destruct (String.eqb_spec k' k0) as [->|Hne'].
      * destruct (String.eqb_spec k0 k) as [E|_]; [congruence | reflexivity].
      * reflexivity.
Qed.

Lemma keys_dict_set_eq {V : Type} (k : string) (v : V) (d : dict V) :
  keys (dict_set k v d)
  = if existsb (String.eqb k) (keys d) then keys d else keys d ++ [k].
Proof.
  induction d as [|[k0 v0] d IH]; simpl; [reflexivity|].
  destruct (String.eqb k k0) eqn:E; simpl.
  - apply String.eqb_eq in E. subst. reflexivity.
  - rewrite IH. destruct (existsb (String.eqb k) (keys d)); reflexivity.
Qed.

(** X6: after [add_sketchpad], the SketchPad is found under its
    identifier and every other identifier finds what it found before; a
    SketchPad whose identifier was already filed replaces the old one in
    its place, a new one goes last. *)
Theorem add_sketchpad_lookup (self : portfolio) (sketchpad : pad) :
  let after_add := Portfolio.sketchpads (Portfolio.add_sketchpad self sketchpad) in
  (forall k, dict_get k after_add
             = if String.eqb k (SketchPad.id sketchpad) then Some sketchpad
               else dict_get k (Portfolio.sketchpads self)) /\
  keys after_add
  = (if existsb (String.eqb (SketchPad.id sketchpad)) (keys (Portfolio.sketchpads self))
     then keys (Portfolio.sketchpads self)
     else keys (Portfolio.sketchpads self) ++ [SketchPad.id sketchpad]).
Proof.
  simpl. split; [intro k; apply dict_get_set | apply keys_dict_set_eq].
Qed.

Lemma find_app {A : Type} (f : A -> bool) (l1 l2 : list A) :
  find f (l1 ++ l2) = match find f l1 with Some x => Some x | None => find f l2 end.
Proof.
  induction l1 as [|a l1 IH]; simpl; [reflexivity|].
  destruct (f a); [reflexivity | exact IH].
Qed.

Lemma fold_dict_set_get (sps : list pad) (d : dict pad) (k : string) :
  dict_get k (fold_left (fun d sp => dict_set (SketchPad.id sp) sp d) sps d)
  = match find (fun sp => String.eqb k (SketchPad.id sp)) (rev sps) with
    | Some sp => Some sp
    | None => dict_get k d
    end.
Proof.
  revert d. induction sps as [|sp sps IH]; intro d; simpl; [reflexivity|].
  rewrite IH, find_app. simpl.
  destruct (find _ (rev sps)); [reflexivity|].
  rewrite dict_get_set. destruct (String.eqb k (SketchPad.id sp)); reflexivity.
Qed.

(** X7: [Portfolio(sketchpads)] files every SketchPad under its own
    identifier, each identifier once; when several SketchPads of the list
    share an identifier the last one is kept, and an identifier that no
    SketchPad of the list has is not found. *)
Theorem init_last_wins (sps : list pad) :
  wf (Portfolio.init sps) /\
  forall k, dict_get k (Portfolio.sketchpads (Portfolio.init sps))
            = find (fun sp => String.eqb k (SketchPad.id sp)) (rev sps).
Proof.
  split.
  - apply init_wf.
  - intro k. unfold Portfolio.init. simpl. rewrite fold_dict_set_get.
    destruct (find _ (rev sps)); reflexivity.
Qed.

Lemma fold_dict_set_distinct (sps : list pad) (d : dict pad) :
  NoDup (keys d ++ map (@SketchPad.id _ _) sps) ->
  fold_left (fun d sp => dict_set (SketchPad.id sp) sp d) sps d
  = d ++ map (fun sp => (SketchPad.id sp, sp)) sps.
Proof.
  revert d. induction sps as [|sp sps IH]; intros d Hnd; simpl.
  - rewrite app_nil_r. reflexivity.
  - rewrite dict_set_fresh.
    + rewrite IH.
      * rewrite <- app_assoc. reflexivity.
      * unfold keys in *. rewrite map_app. simpl. rewrite <- app_assoc. exact Hnd.
    + simpl in Hnd. apply NoDup_remove_2 in Hnd. intro Hin. apply Hnd.
      apply in_or_app. left. exact Hin.
Qed.

Lemma init_distinct (sps : list pad) :
  NoDup (map (@SketchPad.id _ _) sps) ->
  Portfolio.sketchpads (Portfolio.init sps) = map (fun sp => (SketchPad.id sp, sp)) sps.
Proof.
  intro H. unfold Portfolio.init. simpl. apply (fold_dict_set_distinct sps []). exact H.
Qed.

(** X8: [Portfolio(sketchpads)] on SketchPads of distinct identifiers
    keeps all of them, in the order of the list. *)
Theorem init_keeps_order (sps : list pad) :
  NoDup (map (@SketchPad.id _ _) sps) ->
  values (Portfolio.sketchpads (Portfolio.init sps)) = sps /\
  keys (Portfolio.sketchpads (Portfolio.init sps)) = map (@SketchPad.id _ _) sps.
Proof.
  intro H. rewrite (init_distinct sps H). unfold values, keys.
  rewrite !map_map. simpl. split; [apply map_id | reflexivity].
Qed.

(** [from_sketchpad] gives a Portfolio that holds the SketchPad, under
    its identifier, and nothing else. *)
Theorem from_sketchpad_single (sketchpad : pad) :
  Portfolio.sketchpads (Client.from_sketchpad sketchpad)
  = [(SketchPad.id sketchpad, sketchpad)].
Proof. reflexivity. Qed.

Lemma fold_pk_raises (pre post : list pad) (sp : pad) (e : exn) (acc : portfolio) :
  (forall p, In p pre -> exists b, Portfolio.is_approx_pk p = Ok b) ->
  Portfolio.is_approx_pk sp = Raise e ->
  foldM (fun pf sketchpad =>
           b <- Portfolio.is_approx_pk sketchpad ;;
           if b then Ok (Portfolio.add_sketchpad pf sketchpad) else Ok pf)
        (pre ++ sp :: post) acc
  = Raise e.
Proof.
  revert acc. induction pre as [|p pre IH]; intros acc Hpre Hsp; simpl.
  - rewrite Hsp. reflexivity.
  - destruct (Hpre p (or_introl eq_refl)) as [b Hb]. rewrite Hb. cbn [bind].
    destruct b; cbn [bind]; apply IH; auto; intros q Hq; apply Hpre; right; exact Hq.
Qed.

(** X9: [get_approx_pk_sketchpads] raises at the first SketchPad, in the
    Portfolio's order, that the test cannot read: AttributeError when it
    has no HyperLogLog data (None has no [count]), TypeError when it has
    that but no Rows data ([int(None)]); nothing is returned. *)
Theorem get_approx_pk_sketchpads_raises (self : portfolio) (pre post : list pad) (sp : pad) :
  values (Portfolio.sketchpads self) = pre ++ sp :: post ->
  (forall p, In p pre -> exists b, Portfolio.is_approx_pk p = Ok b) ->
  (SketchPad.get_sketchdata_by_name sp "HyperLogLog" = None ->
     Portfolio.get_approx_pk_sketchpads self = Raise AttributeError) /\
  (forall uq,
     Portfolio.count_of (SketchPad.get_sketchdata_by_name sp "HyperLogLog") = Ok uq ->
     SketchPad.get_sketchdata_by_name sp "Rows" = None ->
     Portfolio.get_approx_pk_sketchpads self = Raise TypeError).
Proof.
  intros Hv Hpre. unfold Portfolio.get_approx_pk_sketchpads. rewrite Hv. split.
  - intro Hh. apply fold_pk_raises; [exact Hpre|].
    unfold Portfolio.is_approx_pk. rewrite Hh. reflexivity.
  - intros uq Hc Hr. apply fold_pk_raises; [exact Hpre|].
    unfold Portfolio.is_approx_pk. rewrite Hc, Hr. reflexivity.
Qed.

Lemma filter_twice {A : Type} (f : A -> bool) (l : list A) :
  filter f (filter f l) = filter f l.
Proof.
  induction l as [|a l IH]; simpl; [reflexivity|].
  destruct (f a) eqn:E; simpl; [rewrite E, IH|]; auto.
Qed.

(** X10: filtering twice is filtering once: on a Portfolio whose
    SketchPads the test can read, the Portfolio that
    [get_approx_pk_sketchpads] returns is well-formed, part of the
    original, and returned unchanged by a second call. *)
Theorem get_approx_pk_sketchpads_idempotent (self : portfolio) :
  wf self ->
  (forall sp, In sp (values (Portfolio.sketchpads self)) ->
     exists b, Portfolio.is_approx_pk sp = Ok b) ->
  exists pk,
    Portfolio.get_approx_pk_sketchpads self = Ok pk /\
    wf pk /\
    (forall sp, In sp (values (Portfolio.sketchpads pk)) ->
                In sp (values (Portfolio.sketchpads self))) /\
    Portfolio.get_approx_pk_sketchpads pk = Ok pk.
Proof.
  intros Hwf Hok.
  set (d := Portfolio.sketchpads self).
  set (pk := {| Portfolio.sketchpads := filter (fun kv => passes_pk (snd kv)) d |}
             : portfolio).
  assert (Hpass : forall sp, In sp (values d) -> Portfolio.is_approx_pk sp = Ok (passes_pk sp)).
  { intros sp Hin. destruct (Hok sp Hin) as [b Hb]. unfold passes_pk. rewrite Hb.
    reflexivity. }
  assert (Wpk : wf pk) by (apply filter_wf; destruct self; exact Hwf).
  exists pk. split; [|split; [exact Wpk|split]].
  - destruct Hwf as [Hnd Hid]. unfold Portfolio.get_approx_pk_sketchpads.
    apply (fold_add_filter Portfolio.is_approx_pk passes_pk d []); auto.
  - intros sp Hin. apply values_filter in Hin. tauto.
  - destruct Wpk as [Hnd Hid]. unfold Portfolio.get_approx_pk_sketchpads.
    rewrite (fold_add_filter Portfolio.is_approx_pk passes_pk
               (Portfolio.sketchpads pk) []); auto.
    + simpl. rewrite filter_twice. reflexivity.
    + intros sp Hin. apply Hpass. apply values_filter in Hin. tauto.
Qed.

(** X11: on a Portfolio without SketchPads [closest_overlap] returns the
    empty list, and on a Portfolio of one SketchPad it returns that
    SketchPad with whatever [minhash_jaccard] answered, None included
    (nothing is compared), unless [n] is zero or negative. *)
Theorem closest_overlap_small (q sp : pad) (s : score) (n : Z) :
  SketchPad.minhash_jaccard q sp = Ok s ->
  Portfolio.closest_overlap (Portfolio.init []) q (Some n) = Ok [] /\
  Portfolio.closest_overlap (Portfolio.init [sp]) q (Some n)
  = Ok (if (n <=? 0)%Z then [] else [(s, sp)]).
Proof.
  intro Hs. unfold Portfolio.closest_overlap, Heapq.nlargest. simpl. split.
  - destruct (n <=? 0)%Z; [reflexivity|]. simpl. rewrite firstn_nil. reflexivity.
  - rewrite Hs. simpl. destruct (Z.leb_spec n 0) as [Hle|Hgt]; simpl; [reflexivity|].
    destruct (Z.to_nat n) as [|m] eqn:En; [lia|]. simpl.
    unfold dict_getitem. simpl. rewrite String.eqb_refl. simpl.
    rewrite firstn_nil. reflexivity.
Qed.

End Filing.

(** X8 at the three SketchPads of [upload_portfolio]. *)
Lemma init_keeps_order_witness :
  values (Portfolio.sketchpads (Portfolio.init [upload_a; upload_b; upload_c]))
    = [upload_a; upload_b; upload_c] /\
  keys (Portfolio.sketchpads (Portfolio.init [upload_a; upload_b; upload_c]))
    = map (@SketchPad.id _ _) [upload_a; upload_b; upload_c].
Proof.
  apply (init_keeps_order [upload_a; upload_b; upload_c]).
  repeat constructor; simpl; intuition discriminate.
Defined.

(** X9 at a Portfolio whose second SketchPad has no HyperLogLog sketch. *)
Lemma get_approx_pk_sketchpads_raises_witness :
  Portfolio.get_approx_pk_sketchpads (Portfolio.init [join_key; upload_a; join_asked])
  = Raise AttributeError.
Proof.
  refine (proj1 (get_approx_pk_sketchpads_raises
                   (Portfolio.init [join_key; upload_a; join_asked])
                   [join_key] [join_asked] upload_a _ _) _).
  - reflexivity.
  - intros p [<-|[]]. exists true. vm_compute. reflexivity.
  - reflexivity.
Defined.

(** X10 at [pk_portfolio]. *)
Lemma get_approx_pk_sketchpads_idempotent_witness :
  exists pk,
    Portfolio.get_approx_pk_sketchpads pk_portfolio = Ok pk /\
    wf pk /\
    (forall sp, In sp (values (Portfolio.sketchpads pk)) ->
                In sp (values (Portfolio.sketchpads pk_portfolio))) /\
    Portfolio.get_approx_pk_sketchpads pk = Ok pk.
Proof.
  apply (get_approx_pk_sketchpads_idempotent pk_portfolio).
  - apply init_wf.
  - intros sp Hin. simpl in Hin.
    destruct Hin as [<-|[<-|[<-|[]]]]; eexists; vm_compute; reflexivity.
Defined.

(** X11 at a SketchPad without MinHash sketch, alone in its Portfolio. *)
Lemma closest_overlap_small_witness :
  Portfolio.closest_overlap (Portfolio.init []) demo_query (Some 5%Z) = Ok [] /\
  Portfolio.closest_overlap (Portfolio.init [upload_a]) demo_query (Some 5%Z)
  = Ok [(None, upload_a)].
Proof.
  apply (closest_overlap_small demo_query upload_a None 5%Z). reflexivity.
Defined.

(** ** The client: upload, the frame constructors, find_joinables *)

Section ClientFacts.

Context {Reference Sketch SketchClass SketchData : Type}.
Context {RO : ReferenceOps Reference}.
Context {SO : SketchOps Sketch SketchClass SketchData}.

Local Abbreviation pad := (SketchPad.t Reference Sketch).
Local Abbreviation portfolio := (Portfolio.t Reference Sketch).

Lemma upload_each_outcome (url auth : string) (pads : list pad) (w : World) :
  exists (k : nat) (r : pyval) (records : list string),
    Portfolio.upload_each url auth pads w
    = (Ok r, after w (map (Portfolio.upload_request url auth) (firstn k pads)) records) /\
    ((r = PNone /\ k = List.length pads /\ records = []) \/
     (r = PBool false /\ (1 <= k <= List.length pads)%nat /\ List.length records = 2%nat)).
Proof.
  revert w. induction pads as [|a pads IH]; intro w.
  - exists 0%nat, PNone, []. simpl. rewrite after_nil. auto.
  - simpl. unfold bindM. rewrite requests_post_after.
    destruct (Z.eqb (status_code (remote w (sent w) (Portfolio.upload_request url auth a))) 200)
      eqn:E; cbn [negb].
    + destruct (IH (after w [Portfolio.upload_request url auth a] []))
        as (k & r & records & Hu & Hcase).
      exists (S k), r, records. rewrite Hu, after_after. simpl. split; [reflexivity|].
      destruct Hcase as [(-> & -> & ->)|(-> & Hk & Hl)]; [left | right]; auto.
      repeat split; auto; lia.
    + exists 1%nat, (PBool false),
        [("Failed to upload sketchpad " ++ SketchPad.id a)%string;
         text (remote w (sent w) (Portfolio.upload_request url auth a))].
      split.
      * simpl. unfold ret, after. simpl. rewrite !app_nil_r, <- !app_assoc. reflexivity.
      * right. repeat split; simpl; auto; lia.
Qed.

(** X12: the non-batch [upload] never raises, whatever the server
    answers: it returns None after sending one request per SketchPad, in
    the Portfolio's order, without logging, or False after sending the
    requests of a non-empty initial part of them and logging two records.
    It draws no identifier and does not read the clock. *)
Theorem upload_never_raises (self : portfolio) (url apiKey : option string) (w : World) :
  let url' := match url with None => "http://localhost:8000/api" | Some u => u end in
  let req := Portfolio.upload_request url' ("Bearer " ++ format_opt apiKey)%string in
  let pads := values (Portfolio.sketchpads self) in
  exists (k : nat) (r : pyval) (records : list string),
    Portfolio.upload self url apiKey false w
    = (Ok r, after w (map req (firstn k pads)) records) /\
    ((r = PNone /\ k = List.length pads /\ records = []) \/
     (r = PBool false /\ (1 <= k <= List.length pads)%nat /\ List.length records = 2%nat)).
Proof.
  intros url' req pads. unfold Portfolio.upload. apply upload_each_outcome.
Qed.

(** X13: when the server answers 200 to each of them, the non-batch
    [upload] sends the requests of all SketchPads, in the Portfolio's
    order, logs nothing and returns None. *)
Theorem upload_all_accepted (self : portfolio) (url apiKey : option string) (w : World) :
  let url' := match url with None => "http://localhost:8000/api" | Some u => u end in
  let req := Portfolio.upload_request url' ("Bearer " ++ format_opt apiKey)%string in
  let pads := values (Portfolio.sketchpads self) in
  (forall pre x post, pads = pre ++ x :: post ->
     status_code (remote w (sent w ++ map req pre) (req x)) = 200%Z) ->
  Portfolio.upload self url apiKey false w = (Ok PNone, after w (map req pads) []).
Proof.
  intros url' req pads H. unfold Portfolio.upload. apply upload_each_all_ok. exact H.
Qed.

(** X14: the batch [upload] sends one request, to [/upload_portfolio],
    with the serialised SketchPads in the Portfolio's order; it returns
    None whatever the answer, and an answer other than 200 only leaves
    one record in the log. *)
Theorem upload_batch_single_request (self : portfolio) (url apiKey : option string)
    (w : World) :
  let url' := match url with None => "http://localhost:8000/api" | Some u => u end in
  let rq := {| req_url := (url' ++ "/upload_portfolio")%string;
               req_json := PList (map SketchPad.to_dict
                                      (values (Portfolio.sketchpads self)));
               req_authorization := ("Bearer " ++ format_opt apiKey)%string |} in
  let response := remote w (sent w) rq in
  Portfolio.upload self url apiKey true w
  = (Ok PNone,
     after w [rq]
       (if Z.eqb (status_code response) 200 then []
        else [("Error uploading portfolio: " ++ text response)%string])).
Proof.
  intros url' rq response. unfold Portfolio.upload, bindM. fold url'. fold rq.
  rewrite requests_post_after. fold response.
  destruct (Z.eqb (status_code response) 200); simpl; unfold ret, after; simpl;
    rewrite ?app_nil_r, <- ?app_assoc; reflexivity.
Qed.

Lemma add_dataframe_outcome (self : portfolio) (df : DataFrame) (w : World) :
  Portfolio.add_dataframe (SketchClass := SketchClass) self df w
  = if no_columns df then (Ok self, w) else (Raise TypeError, w).
Proof.
  unfold no_columns. destruct (df_columns df) as [|col cols] eqn:E.
  - apply add_dataframe_no_columns. exact E.
  - eapply add_dataframe_raises. exact E.
Qed.

(** X15: no constructor from frames builds a SketchPad.  [add_dataframe],
    [from_dataframe], [add_dataframes] and [from_dataframes] return the
    Portfolio as it was when no frame has a column, and raise TypeError,
    without drawing an identifier, as soon as a frame has one. *)
Theorem frames_build_nothing (self : portfolio) (df : DataFrame) (dfs : list DataFrame)
    (w : World) :
  Portfolio.add_dataframe (SketchClass := SketchClass) self df w
    = (if no_columns df then (Ok self, w) else (Raise TypeError, w)) /\
  Client.from_dataframe (Reference := Reference) (Sketch := Sketch)
      (SketchClass := SketchClass) df w
    = (if no_columns df then (Ok (Portfolio.init []), w) else (Raise TypeError, w)) /\
  Client.add_dataframes (SketchClass := SketchClass) self dfs w
    = (if forallb no_columns dfs then (Ok self, w) else (Raise TypeError, w)) /\
  Client.from_dataframes (Reference := Reference) (Sketch := Sketch)
      (SketchClass := SketchClass) dfs w
    = (if forallb no_columns dfs then (Ok (Portfolio.init []), w) else (Raise TypeError, w)).
Proof.
  assert (G : forall (p : portfolio),
            Client.add_dataframes (SketchClass := SketchClass) p dfs w
            = (if forallb no_columns dfs then (Ok p, w) else (Raise TypeError, w))).
  { unfold Client.add_dataframes. induction dfs as [|d dfs' IH]; intro p; simpl.
    - reflexivity.
    - unfold bindM. rewrite add_dataframe_outcome.
      destruct (no_columns d); simpl; [apply IH | reflexivity]. }
  split; [apply add_dataframe_outcome|]. split; [apply add_dataframe_outcome|].
  split; apply G.
Qed.

Section FindJoinables.

Variable response_json : Response -> result pyval.
Variable format_04f : pyval -> result string.

Lemma joinable_line_raises (x : pyval) (w : World) :
  exists e w', Client.joinable_line (SketchClass := SketchClass) format_04f x w
               = (Raise e, w').
Proof.
  unfold Client.joinable_line, bindM, lift.
  destruct (getitem x "left_sketchpad") as [ld|e1]; [|eexists; eexists; reflexivity].
  destruct (SketchPad.from_dict ld w) as [[left_pad|e2] w1]; [|eexists; eexists; reflexivity].
  destruct (getitem x "right_sketchpad") as [rd|e3]; [|eexists; eexists; reflexivity].
  destruct (SketchPad.from_dict rd w1) as [[right_pad|e4] w2];
    [|eexists; eexists; reflexivity].
  destruct (getitem x "score") as [sc|]; simpl; [|eexists; eexists; reflexivity].
  destruct (format_04f sc) as [s1|]; simpl; [|eexists; eexists; reflexivity].
  destruct (dict_getitem (SketchPad.metadata left_pad) "reference") as [rf|]; simpl;
    [|eexists; eexists; reflexivity].
  destruct (getitem rf "data") as [dt|]; simpl; [|eexists; eexists; reflexivity].
  destruct (getitem dt "column") as [col|]; simpl; [|eexists; eexists; reflexivity].
  destruct (SketchPad.as_str col) as [s2|]; simpl; eexists; eexists; reflexivity.
Qed.

Lemma from_dict_sent (data : pyval) (w : World) :
  sent (snd (SketchPad.from_dict (Sketch := Sketch) (SketchClass := SketchClass) data w))
  = sent w.
Proof.
  unfold SketchPad.from_dict, SketchPad.from_dict_body, SketchPad.init,
    bindM, lift, ret, uuid4, utcnow_isoformat.
  destruct (getitem data "version") as [v|]; [|reflexivity].
  destruct (SketchPad.py_assert (eq_str v SketchPad.cls_version)); [|reflexivity].
  destruct (getitem data "reference") as [rd|]; [|reflexivity].
  destruct (reference_from_dict rd) as [r|]; [|reflexivity].
  destruct (getitem data "metadata") as [md|]; [|reflexivity].
  destruct (SketchPad.as_dict md) as [mdd|]; [|reflexivity].
  destruct (bind (dict_getitem mdd "id") _) as [i|]; [|reflexivity].
  destruct (getitem data "context") as [ctx|]; [|reflexivity].
  destruct (bind (getitem data "sketches") _) as [sks|]; reflexivity.
Qed.

Lemma joinable_line_sent (x : pyval) (w : World) :
  sent (snd (Client.joinable_line (SketchClass := SketchClass) format_04f x w)) = sent w.
Proof.
  unfold Client.joinable_line, bindM, lift.
  destruct (getitem x "left_sketchpad") as [ld|e1]; [|reflexivity].
  pose proof (from_dict_sent ld w) as H1.
  destruct (SketchPad.from_dict ld w) as [[left_pad|e2] w1]; simpl in H1; [|exact H1].
  destruct (getitem x "right_sketchpad") as [rd|e3]; [|exact H1].
  pose proof (from_dict_sent rd w1) as H2.
  destruct (SketchPad.from_dict rd w1) as [[right_pad|e4] w2]; simpl in H2;
    [|simpl; congruence].
  simpl. congruence.
Qed.

Lemma print_joinables_outcome (xs : list pyval) (w : World) (out : list string) :
  let res := Client.print_joinables (SketchClass := SketchClass) format_04f xs w out in
  snd res = out /\ sent (snd (fst res)) = sent w /\ (fst (fst res) = Ok tt -> xs = []).
Proof.
  destruct xs as [|x xs]; simpl; [auto|].
  pose proof (joinable_line_sent x w) as Hs.
  destruct (joinable_line_raises x w) as (e & w' & H). rewrite H in *. simpl in *.
  split; [reflexivity|]. split; [exact Hs | discriminate].
Qed.

(** X16: [find_joinables] never prints a line.  It sends its query after
    the upload whether the upload returned None or False; on an answer
    other than 200 it raises the exception that carries the answer's text;
    and it returns normally only when the answer is 200 with an empty
    list: for each element of the answer it raises before [print], at the
    latest on [right_sketchpad.reference_repr], which class SketchPad does
    not define. *)
Theorem find_joinables_never_prints (self : portfolio) (url apiKey : option string)
    (w : World) (out : list string) :
  let res := Client.find_joinables response_json format_04f self url apiKey w out in
  let rq := Client.joinables_request self url apiKey in
  snd res = out /\
  exists (r : pyval) (w1 : World),
    Portfolio.upload self url apiKey false w = (Ok r, w1) /\
    sent (snd (fst res)) = sent w1 ++ [rq] /\
    (status_code (remote w1 (sent w1) rq) <> 200%Z ->
       fst (fst res)
       = Raise (Exception ("Error getting joinables: "
                           ++ text (remote w1 (sent w1) rq))%string)) /\
    (fst (fst res) = Ok tt ->
       status_code (remote w1 (sent w1) rq) = 200%Z /\
       (j <- response_json (remote w1 (sent w1) rq) ;; iter j) = Ok []).
Proof.
  intros res rq. unfold res, Client.find_joinables.
  destruct (upload_each_outcome
              (match url with None => "http://localhost:8000/api" | Some u => u end)
              ("Bearer " ++ format_opt apiKey)%string
              (values (Portfolio.sketchpads self)) w) as (k & r & records & Hu & _).
  change (Portfolio.upload_each _ _ _ w) with (Portfolio.upload self url apiKey false w) in Hu.
  rewrite Hu. fold rq. unfold Client.requests_get. cbv beta iota.
  set (w1 := after w _ records) in *.
  set (resp := remote w1 (sent w1) rq).
  destruct (Z.eqb_spec (status_code resp) 200) as [E200|Ene]; simpl negb; cbv iota.
  - destruct (bind (response_json resp) (fun j => iter j)) as [xs|e] eqn:Ej.
    + destruct (print_joinables_outcome xs
                 {| uuid_source := uuid_source w1; uuid_drawn := uuid_drawn w1;
                    clock_source := clock_source w1; clock_read := clock_read w1;
                    remote := remote w1; sent := sent w1 ++ [rq]; logged := logged w1 |}
                 out) as (Hout & Hsent & Hok).
      split; [exact Hout|]. exists r, w1. split; [reflexivity|].
      split; [exact Hsent|].
      split; [intro C; contradiction|].
      intro Hr. split; [exact E200|]. rewrite <- (Hok Hr). exact Ej.
    + split; [reflexivity|]. exists r, w1. split; [reflexivity|]. split; [reflexivity|].
      split; [intro C; contradiction | discriminate].
  - split; [reflexivity|]. exists r, w1. split; [reflexivity|]. split; [reflexivity|].
    split; [reflexivity|discriminate].
Qed.

End FindJoinables.
End ClientFacts.

(** X13 at [upload_portfolio] and a server that answers 200. *)
Lemma upload_all_accepted_witness :
  let req := Portfolio.upload_request "http://localhost:8000/api" "Bearer None" in
  Portfolio.upload upload_portfolio None None false (Model.world 200)
  = (Ok PNone, after (Model.world 200) (map req [upload_a; upload_b; upload_c]) []).
Proof.
  apply (upload_all_accepted upload_portfolio None None (Model.world 200)).
  intros pre x post E. reflexivity.
Defined.

(** ** The handlers of the API *)

Section HandlerFacts.

Context {Database Reference Sketch SketchClass SketchData : Type}.
Context {RO : ReferenceOps Reference}.
Context {SO : SketchOps Sketch SketchClass SketchData}.
Context {DO : DataOps Database Reference Sketch}.

Local Abbreviation pad := (SketchPad.t Reference Sketch).
Local Abbreviation portfolio := (Portfolio.t Reference Sketch).

Variable to_searchable_string : Reference -> string.
Variable Wire : Type.
Variable wire_dict : Wire -> pyval.
Variable wire_str : Wire -> string.
Variable data_add_sketchpad : Database -> string -> Wire -> result unit * Database.
Variable gather_add_sketchpad : Database -> string -> list Wire -> result unit * Database.

Lemma filter_values_wf (f : pad -> bool) (d : dict pad) :
  Forall (fun kv => fst kv = SketchPad.id (snd kv)) d ->
  map (fun sp => (SketchPad.id sp, sp)) (filter f (values d))
  = filter (fun kv => f (snd kv)) d.
Proof.
  induction 1 as [|[k sp] d Hk _ IH]; simpl; [reflexivity|].
  simpl in Hk. subst k. destruct (f sp); simpl; rewrite IH; reflexivity.
Qed.

Lemma NoDup_map_filter {A B : Type} (g : A -> B) (f : A -> bool) (l : list A) :
  NoDup (map g l) -> NoDup (map g (filter f l)).
Proof.
  induction l as [|a l IH]; simpl; intro H; [constructor|].
  inversion H as [|? ? Hn Hd]; subst.
  destruct (f a); simpl; [|auto].
  constructor; [|auto].
  intro Hin. apply Hn. apply in_map_iff in Hin. destruct Hin as (x & E & Hx).
  apply filter_In in Hx. apply in_map_iff. exists x. tauto.
Qed.

Lemma wf_ids (d : dict pad) :
  Forall (fun kv => fst kv = SketchPad.id (snd kv)) d ->
  map (@SketchPad.id _ _) (values d) = keys d.
Proof.
  induction 1 as [|[k sp] d Hk _ IH]; simpl; [reflexivity|].
  simpl in Hk. subst k. f_equal. exact IH.
Qed.

(** X17: for a query that is not empty, [search] returns the page with
    the query and a Portfolio of exactly the SketchPads of the user's
    Portfolio, in their order, whose reference's searchable string
    contains the query as a substring, case kept as it is. *)
Theorem search_keeps_matches (database : Database) (user : User) (q : string)
    (pf : portfolio) :
  q <> "" ->
  get_portfolio database (username user) = Ok pf ->
  wf pf ->
  Handlers.search to_searchable_string database user q
  = Ok {| search_template := "page/search.html";
          search_user := user;
          search_portfolio :=
            {| Portfolio.sketchpads :=
                 filter (fun kv => contains q (to_searchable_string
                                                 (SketchPad.reference (snd kv))))
                        (Portfolio.sketchpads pf) |};
          search_q := q |}.
Proof.
  intros Hq Hpf [Hnd Hid]. unfold Handlers.search.
  destruct (String.eqb_spec q "") as [E|_]; [contradiction|]. simpl negb. cbv iota.
  rewrite Hpf. cbn [bind]. do 3 f_equal.
  unfold Portfolio.init. f_equal.
  change (fold_left _ ?l []) with (Portfolio.sketchpads (Portfolio.init l)).
  rewrite init_distinct.
  - apply filter_values_wf. exact Hid.
  - apply NoDup_map_filter. rewrite (wf_ids _ Hid). exact Hnd.
Qed.

(** For the empty query, [search] returns the page with an empty
    Portfolio without reading the store: the outcome is the same whatever
    [get_portfolio] would have returned or raised. *)
Theorem search_empty_query (database : Database) (user : User) :
  Handlers.search to_searchable_string database user ""
  = Ok {| search_template := "page/search.html";
          search_user := user;
          search_portfolio := Portfolio.init [];
          search_q := "" |}.
Proof. reflexivity. Qed.

Lemma from_dict_wrong_version (data v : pyval) (w : World) :
  getitem data "version" = Ok v -> v <> PStr "0.0.1" ->
  SketchPad.from_dict (Sketch := Sketch) (SketchClass := SketchClass) data w
  = (Raise AssertionError, w).
Proof.
  intros Hv Hne. unfold SketchPad.from_dict, bindM, lift, SketchPad.cls_version.
  rewrite Hv. destruct (eq_str v "0.0.1") eqn:E; [|reflexivity].
  apply eq_str_true in E. contradiction.
Qed.

(** X18: [upload_sketchpad] stores nothing of a payload that [from_dict]
    rejects.  With a version other than "0.0.1" the handler raises
    AssertionError, after printing the payload, and the store, the
    identifiers drawn and the clock are as before; [data.add_sketchpad] is
    not reached. *)
Theorem upload_sketchpad_rejects (sketchpad : Wire) (user : User)
    (s : Handlers.Server (Database := Database)) (v : pyval) :
  getitem (wire_dict sketchpad) "version" = Ok v -> v <> PStr "0.0.1" ->
  Handlers.upload_sketchpad (Reference := Reference) (Sketch := Sketch)
    (SketchClass := SketchClass) wire_dict wire_str data_add_sketchpad sketchpad user s
  = (Raise AssertionError,
     {| Handlers.world := Handlers.world s;
        Handlers.store := Handlers.store s;
        Handlers.stdout := Handlers.stdout s ++ [wire_str sketchpad] |}).
Proof.
  intros Hv Hne. unfold Handlers.upload_sketchpad.
  rewrite (from_dict_wrong_version _ v _ Hv Hne). reflexivity.
Qed.

Lemma validate_all_rejects (sketchpads : list Wire) (bad : Wire) (v : pyval) (w : World) :
  In bad sketchpads ->
  getitem (wire_dict bad) "version" = Ok v -> v <> PStr "0.0.1" ->
  exists e w',
    Handlers.validate_all (Reference := Reference) (Sketch := Sketch)
      (SketchClass := SketchClass) wire_dict sketchpads w = (Raise e, w').
Proof.
  intros Hin Hv Hne. unfold Handlers.validate_all. revert w.
  induction sketchpads as [|x l IH]; intro w; [contradiction|].
  simpl. unfold bindM at 1 2.
  destruct (SketchPad.from_dict (wire_dict x) w) as [[sp|e] w1] eqn:E.
  - destruct Hin as [->|Hin].
    + rewrite (from_dict_wrong_version _ v _ Hv Hne) in E. discriminate.
    + unfold ret. apply IH. exact Hin.
  - exists e, w1. reflexivity.
Qed.

(** X19: [upload_portfolio] validates every payload before it stores any:
    when one payload of the list has a version other than "0.0.1", the
    handler raises and the store is as before, the payloads that stand
    before the bad one included. *)
Theorem upload_portfolio_all_or_nothing (sketchpads : list Wire) (bad : Wire)
    (user : User) (s : Handlers.Server (Database := Database)) (v : pyval) :
  In bad sketchpads ->
  getitem (wire_dict bad) "version" = Ok v -> v <> PStr "0.0.1" ->
  let res := Handlers.upload_portfolio (Reference := Reference) (Sketch := Sketch)
               (SketchClass := SketchClass) wire_dict gather_add_sketchpad
               sketchpads user s in
  (exists e, fst res = Raise e) /\
  Handlers.store (snd res) = Handlers.store s /\
  Handlers.stdout (snd res) = Handlers.stdout s.
Proof.
  intros Hin Hv Hne. unfold Handlers.upload_portfolio.
  destruct (validate_all_rejects sketchpads bad v (Handlers.world s) Hin Hv Hne)
    as (e & w' & H).
  rewrite H. simpl. split; [exists e; reflexivity | split; reflexivity].
Qed.

Lemma mapMM_from_dict_to_dict (ps : list pad) (w : World) :
  Forall serialisable ps ->
  fst (Handlers.mapMM (fun d => SketchPad.from_dict (SketchClass := SketchClass) d)
         (map SketchPad.to_dict ps) w) = Ok ps.
Proof.
  intro H. revert w. induction H as [|p ps Hp _ IH]; intro w; simpl; [reflexivity|].
  unfold bindM at 1.
  destruct Hp as (Hv & Hid & Hr & Hs).
  pose proof (from_dict_to_dict p w Hv Hid Hr Hs) as E.
  destruct (SketchPad.from_dict (SketchPad.to_dict p) w) as [r w1]. simpl in E. subst r.
  unfold bindM. specialize (IH w1).
  destruct (Handlers.mapMM _ (map SketchPad.to_dict ps) w1) as [r2 w2].
  simpl in IH. subst r2. reflexivity.
Qed.

(** X20: the component endpoint rebuilds the right-hand SketchPads of the
    best joins it is given: when these are the serialisations of
    SketchPads that survive [to_dict] and [from_dict], the page's
    Portfolio is the Portfolio of those SketchPads. *)
Theorem component_rebuilds_right_pads (best_joins : list Api.candidate) (ps : list pad)
    (w : World) :
  map Api.right_sketchpad best_joins = map SketchPad.to_dict ps ->
  Forall serialisable ps ->
  fst (Handlers.component_get_approx_best_joins (SketchClass := SketchClass) best_joins w)
  = Ok {| component_template := "component/references.html";
          component_portfolio := Portfolio.init ps |}.
Proof.
  intros Hmap Hs. unfold Handlers.component_get_approx_best_joins, bindM.
  assert (E : forall (l : list Api.candidate) w0,
            Handlers.mapMM (fun x => SketchPad.from_dict (SketchClass := SketchClass)
                                       (Api.right_sketchpad x)) l w0
            = Handlers.mapMM (fun d => SketchPad.from_dict (SketchClass := SketchClass) d)
                (map Api.right_sketchpad l) w0).
  { induction l as [|x l IH]; intro w0; simpl; [reflexivity|].
    unfold bindM. destruct (SketchPad.from_dict (Api.right_sketchpad x) w0) as [[y|e] w1];
      [|reflexivity].
    rewrite IH. reflexivity. }
  rewrite E, Hmap.
  pose proof (mapMM_from_dict_to_dict ps w Hs) as H.
  destruct (Handlers.mapMM _ (map SketchPad.to_dict ps) w) as [r w1].
  simpl in H. subst r. reflexivity.
Qed.

End HandlerFacts.

(** X17 at ann's SketchPads in [join_store], searched for "customer". *)
Lemma search_keeps_matches_witness :
  Handlers.search demo_searchable join_store {| username := "ann" |} "customer"
  = Ok {| search_template := "page/search.html";
          search_user := {| username := "ann" |};
          search_portfolio :=
            {| Portfolio.sketchpads :=
                 filter (fun kv => contains "customer"
                                     (demo_searchable (SketchPad.reference (snd kv))))
                        (Portfolio.sketchpads
                           (Portfolio.init [join_key; join_other; join_asked])) |};
          search_q := "customer" |}.
Proof.
  apply (search_keeps_matches demo_searchable join_store {| username := "ann" |}
           "customer" (Portfolio.init [join_key; join_other; join_asked])).
  - discriminate.
  - reflexivity.
  - apply init_wf.
Defined.

Example search_demo :
  match Handlers.search demo_searchable join_store {| username := "ann" |} "customer" with
  | Ok page => Ok (keys (Portfolio.sketchpads (search_portfolio page)))
  | Raise e => Raise e
  end = Ok ["k1"; "f1"].
Proof. vm_compute. reflexivity. Qed.

(** X18 at [stale_document]. *)
Lemma upload_sketchpad_rejects_witness :
  let s := {| Handlers.world := Model.world 200;
              Handlers.store := join_store;
              Handlers.stdout := [] |} in
  Handlers.upload_sketchpad (Reference := Model.Reference) (Sketch := Model.Sketch)
    (SketchClass := Model.SketchClass) (fun d => d) (fun _ => "SketchPad(...)")
    demo_add stale_document {| username := "ann" |} s
  = (Raise AssertionError,
     {| Handlers.world := Model.world 200;
        Handlers.store := join_store;
        Handlers.stdout := ["SketchPad(...)"] |}).
Proof.
  apply (upload_sketchpad_rejects (Reference := Model.Reference) (Sketch := Model.Sketch)
           (SketchClass := Model.SketchClass) pyval (fun d => d) (fun _ => "SketchPad(...)")
           demo_add stale_document {| username := "ann" |}
           {| Handlers.world := Model.world 200;
              Handlers.store := join_store;
              Handlers.stdout := [] |}
           (PStr "0.0.2")).
  - reflexivity.
  - discriminate.
Defined.

(** X19 at a valid document followed by [stale_document]. *)
Lemma upload_portfolio_all_or_nothing_witness :
  let s := {| Handlers.world := Model.world 200;
              Handlers.store := join_store;
              Handlers.stdout := [] |} in
  let res := Handlers.upload_portfolio (Reference := Model.Reference)
               (Sketch := Model.Sketch) (SketchClass := Model.SketchClass)
               (fun d => d) demo_gather
               [SketchPad.to_dict demo_pad; stale_document] {| username := "ann" |} s in
  (exists e, fst res = Raise e) /\
  Handlers.store (snd res) = join_store /\
  Handlers.stdout (snd res) = [].
Proof.
  apply (upload_portfolio_all_or_nothing (Reference := Model.Reference)
           (Sketch := Model.Sketch) (SketchClass := Model.SketchClass)
           pyval (fun d => d) demo_gather
           [SketchPad.to_dict demo_pad; stale_document] stale_document
           {| username := "ann" |}
           {| Handlers.world := Model.world 200;
              Handlers.store := join_store;
              Handlers.stdout := [] |}
           (PStr "0.0.2")).
  - right. left. reflexivity.
  - reflexivity.
  - discriminate.
Defined.

(** X20 at the one best join of [join_store]. *)
Lemma component_rebuilds_right_pads_witness :
  fst (Handlers.component_get_approx_best_joins (SketchClass := Model.SketchClass)
         [{| Api.score := Some (PyFloat 0.5);
             Api.left_sketchpad := SketchPad.to_dict join_asked;
             Api.right_sketchpad := SketchPad.to_dict join_key |}]
         (Model.world 200))
  = Ok {| component_template := "component/references.html";
          component_portfolio := Portfolio.init [join_key] |}.
Proof.
  apply (component_rebuilds_right_pads (SketchClass := Model.SketchClass)
           [{| Api.score := Some (PyFloat 0.5);
               Api.left_sketchpad := SketchPad.to_dict join_asked;
               Api.right_sketchpad := SketchPad.to_dict join_key |}]
           [join_key] (Model.world 200)).
  - reflexivity.
  - constructor; [|constructor].
    unfold serialisable. repeat split; try reflexivity. repeat constructor.
Defined.

(** ** The upper bin bound of cardhisto, continued *)

Section CardhistoRange.

Local Open Scope R_scope.







End CardhistoRange.


